(** * Bouncing-ball trajectory integrator (src/simulation.ts)

    A shallow embedding of the closed-form single-ball integrator and of the
    trajectory functions it is built from, with the properties the
    specification states about them.

    Numbers.  The program computes on JavaScript numbers.  They are embedded
    as the real numbers extended with [+Infinity], [-Infinity] and [NaN]:
    every operator follows the ECMAScript table for its special values
    (0/0 is NaN, log 0 is -Infinity, NaN compares false with everything, ...)
    and is exact on finite values.  Two things of IEEE-754 binary64 are left
    out on purpose: rounding (and with it overflow), and the sign of zero
    ([-0] and [+0] are one value, as they are for [===]).  The sign of a zero
    shows only when a non-zero number is divided by it or when it is raised
    to a negative power; the embedding takes the zero as [+0] there.  The
    integrator reaches neither case on a ball with finite components.

    Properties stated on this embedding are properties of the program in
    exact arithmetic.  Where rounding decides what the program returns, the
    program is embedded a second time, on binary64 doubles, in [B64]. *)

From Stdlib Require Import Reals Lra Lia ZArith Bool.
From Stdlib Require Import Rpower R_sqrt Zfloor.
From Stdlib Require Import List.
From Stdlib Require String.
From Stdlib Require SpecFloat QArith Lqa.
Import ListNotations.

Open Scope R_scope.

(* ================================================================= *)
(** ** JavaScript numbers *)

Module JS.

Inductive number : Type :=
| Fin (r : R)
| PInf
| NInf
| NaN.

Definition is_zero (r : R) : bool := if Req_dec_T r 0 then true else false.
Definition is_pos (r : R) : bool := if Rlt_dec 0 r then true else false.
Definition is_neg (r : R) : bool := if Rlt_dec r 0 then true else false.

(** Unary minus. *)
Definition neg (a : number) : number :=
  match a with
  | Fin x => Fin (- x)
  | PInf => NInf
  | NInf => PInf
  | NaN => NaN
  end.

(** [a + b] *)
Definition add (a b : number) : number :=
  match a, b with
  | NaN, _ | _, NaN => NaN
  | Fin x, Fin y => Fin (x + y)
  | PInf, NInf | NInf, PInf => NaN
  | PInf, _ | _, PInf => PInf
  | NInf, _ | _, NInf => NInf
  end.

(** [a - b] *)
Definition sub (a b : number) : number := add a (neg b).

(** The product of an infinity of sign [positive] with the finite [x]. *)
Definition inf_times (positive : bool) (x : R) : number :=
  if is_zero x then NaN
  else if eqb positive (is_pos x) then PInf else NInf.

(** [a * b] *)
Definition mul (a b : number) : number :=
  match a, b with
  | NaN, _ | _, NaN => NaN
  | Fin x, Fin y => Fin (x * y)
  | Fin x, PInf | PInf, Fin x => inf_times true x
  | Fin x, NInf | NInf, Fin x => inf_times false x
  | PInf, PInf | NInf, NInf => PInf
  | PInf, NInf | NInf, PInf => NInf
  end.

(** [a / b] *)
Definition div (a b : number) : number :=
  match a, b with
  | NaN, _ | _, NaN => NaN
  | Fin x, Fin y =>
      if is_zero y then
        if is_zero x then NaN else if is_pos x then PInf else NInf
      else Fin (x / y)
  | Fin _, (PInf | NInf) => Fin 0
  | PInf, Fin y => if is_neg y then NInf else PInf
  | NInf, Fin y => if is_neg y then PInf else NInf
  | (PInf | NInf), (PInf | NInf) => NaN
  end.

(** [a < b] *)
Definition ltb (a b : number) : bool :=
  match a, b with
  | NaN, _ | _, NaN => false
  | Fin x, Fin y => if Rlt_dec x y then true else false
  | NInf, NInf => false
  | NInf, _ => true
  | PInf, _ => false
  | Fin _, PInf => true
  | Fin _, NInf => false
  end.

(** [a > b] *)
Definition gtb (a b : number) : bool := ltb b a.

(** [a <= b] *)
Definition leb (a b : number) : bool :=
  match a, b with
  | NaN, _ | _, NaN => false
  | _, _ => negb (ltb b a)
  end.

(** [a === b] *)
Definition strict_eq (a b : number) : bool :=
  match a, b with
  | Fin x, Fin y => if Req_dec_T x y then true else false
  | PInf, PInf | NInf, NInf => true
  | _, _ => false
  end.

(** [isNaN(a)] *)
Definition isNaN (a : number) : bool :=
  match a with NaN => true | _ => false end.

(** [Math.sqrt(a)] *)
Definition Math_sqrt (a : number) : number :=
  match a with
  | Fin x => if is_neg x then NaN else Fin (sqrt x)
  | PInf => PInf
  | NInf | NaN => NaN
  end.

(** [Math.log(a)] *)
Definition Math_log (a : number) : number :=
  match a with
  | Fin x => if is_neg x then NaN else if is_zero x then NInf else Fin (ln x)
  | PInf => PInf
  | NInf | NaN => NaN
  end.

(** [Math.floor(a)] *)
Definition Math_floor (a : number) : number :=
  match a with
  | Fin x => Fin (IZR (Zfloor x))
  | other => other
  end.

Definition is_integer (x : R) : bool :=
  if Req_dec_T x (IZR (Zfloor x)) then true else false.

Definition is_odd_integer (x : R) : bool :=
  is_integer x && Z.odd (Zfloor x).

(** [Math.pow(base, exponent)], case by case as Number::exponentiate lists
    them. *)
Definition Math_pow (base exponent : number) : number :=
  match exponent with
  | NaN => NaN
  | Fin e =>
      if is_zero e then Fin 1
      else
        match base with
        | NaN => NaN
        | PInf => if is_pos e then PInf else Fin 0
        | NInf =>
            if is_pos e then (if is_odd_integer e then NInf else PInf)
            else Fin 0
        | Fin b =>
            if is_zero b then (if is_pos e then Fin 0 else PInf)
            else if is_pos b then Fin (Rpower b e)
            else if is_integer e then Fin (powerRZ b (Zfloor e))
            else NaN
        end
  | PInf =>
      match base with
      | NaN => NaN
      | PInf | NInf => PInf
      | Fin b =>
          if Rlt_dec 1 (Rabs b) then PInf
          else if Req_dec_T (Rabs b) 1 then NaN
          else Fin 0
      end
  | NInf =>
      match base with
      | NaN => NaN
      | PInf | NInf => Fin 0
      | Fin b =>
          if Rlt_dec 1 (Rabs b) then Fin 0
          else if Req_dec_T (Rabs b) 1 then NaN
          else PInf
      end
  end.

End JS.

Import JS.

Declare Scope js_scope.
Delimit Scope js_scope with js.
Bind Scope js_scope with number.
Infix "+" := add : js_scope.
Infix "-" := sub : js_scope.
Infix "*" := mul : js_scope.
Infix "/" := div : js_scope.
Notation "- a" := (neg a) : js_scope.
Infix "<?" := ltb (at level 70) : js_scope.
Infix ">?" := gtb (at level 70) : js_scope.
Infix "<=?" := leb (at level 70) : js_scope.
Infix "===" := strict_eq (at level 70) : js_scope.

(* ================================================================= *)
(** ** The program: src/simulation.ts *)

(** [type Ball = [number, number, number, number]], that is [[x, y, x', y']]. *)
Definition Ball : Type := (number * number * number * number)%type.

Definition COEFFICIENT_OF_RESTITUTION : number := Fin (1 / 2).
Definition GRAVITY : number := Fin (-1000).

Definition timeToImpact (ball : Ball) : number :=
  let '(x, y, x_, y_) := ball in
  ((- y_ - Math_sqrt (y_ * y_ - Fin 2 * GRAVITY * y)) / GRAVITY)%js.

Definition flightTimeThisBounce (reboundVelocity : number) : number :=
  ((Fin 2 * reboundVelocity) / - GRAVITY)%js.

Definition timeToStillness (reboundVelocity : number) : number :=
  (flightTimeThisBounce reboundVelocity *
   (Fin 1 + COEFFICIENT_OF_RESTITUTION / (Fin 1 - COEFFICIENT_OF_RESTITUTION)))%js.

Definition timeForNBounces (reboundVelocity bounces : number) : number :=
  if (bounces === Fin 0)%js then Fin 0
  else
    ((flightTimeThisBounce reboundVelocity *
      Math_pow (Fin 1 - COEFFICIENT_OF_RESTITUTION) bounces) /
     (Fin 1 - COEFFICIENT_OF_RESTITUTION))%js.

Definition numberOfBouncesInPeriod (reboundVelocity period : number) : number :=
  Math_floor
    (Math_log
       (Fin 1 -
        ((Fin 1 - COEFFICIENT_OF_RESTITUTION) * period) /
        flightTimeThisBounce reboundVelocity) /
     Math_log COEFFICIENT_OF_RESTITUTION)%js.

Definition simulateWithoutImpacts (ball : Ball) (seconds : number) : Ball :=
  let '(x, y, x_, y_) := ball in
  let y' := (y + y_ * seconds + Fin (1 / 2) * GRAVITY * seconds * seconds)%js in
  let y_' := (y_ + GRAVITY * seconds)%js in
  let x' := (x + x_ * seconds)%js in
  (x', y', x_, y_').

Definition simulateAfterImpact (ball : Ball) (seconds : number) : Ball :=
  let '(x, y, x_, y_) := ball in
  let reboundVelocity := y_ in
  if (timeToStillness reboundVelocity <? seconds)%js then
    ((x + x_ * seconds)%js, Fin 0, x_, Fin 0)
  else
    let bounces := numberOfBouncesInPeriod reboundVelocity seconds in
    let bounceTime := timeForNBounces reboundVelocity bounces in
    simulateWithoutImpacts
      ((x + x_ * bounceTime)%js,
       Fin 0,
       x_,
       (reboundVelocity * Math_pow COEFFICIENT_OF_RESTITUTION bounces)%js)
      (seconds - bounceTime)%js.

Definition simulateSingleBall (ball : Ball) (seconds : number) : Ball :=
  let tti := timeToImpact ball in
  if (tti >? seconds)%js then
    simulateWithoutImpacts ball seconds
  else
    let '(x, y, x_, y_) := simulateWithoutImpacts ball tti in
    simulateAfterImpact
      (x, y, x_, (- COEFFICIENT_OF_RESTITUTION * y_)%js)
      (seconds - tti)%js.

Definition simulateManyBalls (balls : list Ball) (seconds : number) : list Ball :=
  List.map (fun b => simulateSingleBall b seconds) balls.

(* ================================================================= *)
(** ** The earlier, approximate simulation

    The repository also holds the single-file version of the program that
    simulation.ts was split from.  Its [timeToImpact] is the same formula
    behind a guard that throws when a component of the ball is [NaN]. *)

Module Approximate.

Inductive outcome (A : Type) : Type :=
| Returns (value : A)
| Throws (message : Ball).

Arguments Returns {A} value.
Arguments Throws {A} message.

Definition timeToImpact (ball : Ball) : outcome number :=
  let '(x, y, x_, y_) := ball in
  if isNaN x || isNaN y || isNaN x_ || isNaN y_ then Throws (x, y, x_, y_)
  else Returns ((- y_ - Math_sqrt (y_ * y_ - Fin 2 * GRAVITY * y)) / GRAVITY)%js.

End Approximate.

(* ================================================================= *)
(** ** The user interface: src/index.ts

    The functions of index.ts that call the integrator.  What they take from
    the host (random samples, the clock, the identifier of a requested
    animation frame) is passed in; what they do to the host (canvas calls,
    console output, frame requests) is returned as a list of effects. *)

Module Index.

Import String.

(** [Math.PI] *)
Definition Math_PI : number := Fin PI.

(** The samples [Math.random()] is going to return, in order. *)
Definition Random : Type := nat -> number.

(** [Math.random()]: the next sample, and the samples left. *)
Definition Math_random (rand : Random) : number * Random :=
  (rand O, fun n => rand (S n)).

Definition SCATTER : number := Fin 250.

(** The [for] loop of [gaussianApproximation] with [iterations] rounds to go. *)
Fixpoint gaussianLoop (iterations : nat) (result : number) (rand : Random)
  : number * Random :=
  match iterations with
  | O => (result, rand)
  | S k =>
      let (sample, rand') := Math_random rand in
      gaussianLoop k (result + (sample - Fin (1 / 2)))%js rand'
  end.

Definition gaussianApproximation (rand : Random) : number * Random :=
  let n := 6%nat in
  gaussianLoop n (Fin 0) rand.

Record HTMLCanvasElement : Type := {
  width : number;
  height : number;
  clientWidth : number;
  clientHeight : number
}.

(** Calls on the 2d drawing context. *)
Inductive CanvasCall : Type :=
| ClearRect (x y w h : number)
| BeginPath
| Arc (x y radius startAngle endAngle : number)
| SetFillStyle (style : string)
| Fill.

Inductive Effect : Type :=
| Draw (call : CanvasCall)
| ConsoleLog (message : string)
| RequestAnimationFrame.

(** The body of the loop of [drawBalls]. *)
Definition drawBall (canvas : HTMLCanvasElement) (ball : Ball) : list CanvasCall :=
  let '(x, y, _, _) := ball in
  [BeginPath;
   Arc x (height canvas - y)%js (Fin 2) (Fin 0) (Fin 2 * Math_PI)%js;
   SetFillStyle "black";
   Fill].

Definition drawBalls (canvas : HTMLCanvasElement) (balls : list Ball)
  : list CanvasCall :=
  ClearRect (Fin 0) (Fin 0) (width canvas) (height canvas)
  :: flat_map (drawBall canvas) balls.

Definition garbageCollect (canvas : HTMLCanvasElement) (balls : list Ball)
  : list Ball :=
  filter (fun ball => let '(x, _, _, _) := ball in
                      (x >? Fin 0)%js && (x <? width canvas)%js) balls.

(** [balls.push(...)]: the array with the new ball at its end. *)
Definition addBall (balls : list Ball) (x y : number) (rand : Random)
  : list Ball * Random :=
  let (gx, rand1) := gaussianApproximation rand in
  let (gy, rand2) := gaussianApproximation rand1 in
  (balls ++ [(x, y, (SCATTER * gx)%js, (SCATTER * gy)%js)], rand2).

(** [class UserInterface]; an optional field that is [undefined] or [null]
    is [None]. *)
Record UserInterface : Type := {
  balls : list Ball;
  canvas : HTMLCanvasElement;
  callbackId : option number;
  lastTimestamp : option number
}.

(** [!value] for an optional number. *)
Definition falsy (value : option number) : bool :=
  match value with
  | None => true
  | Some n => (n === Fin 0)%js || isNaN n
  end.

Record MouseEvent : Type := { clientX : number; clientY : number }.

(** The fields of [getBoundingClientRect()] that [handleClick] reads. *)
Record DOMRect : Type := { left : number; bottom : number }.

Definition handleResize (ui : UserInterface) : UserInterface :=
  {| balls := balls ui;
     canvas := {| width := clientWidth (canvas ui);
                  height := clientHeight (canvas ui);
                  clientWidth := clientWidth (canvas ui);
                  clientHeight := clientHeight (canvas ui) |};
     callbackId := callbackId ui;
     lastTimestamp := lastTimestamp ui |}.

(** [frameId] is what [requestAnimationFrame] returns if it is called. *)
Definition startSimulationIfNeeded (frameId : number) (ui : UserInterface)
  : UserInterface * list Effect :=
  if falsy (callbackId ui) then
    ({| balls := balls ui; canvas := canvas ui;
        callbackId := Some frameId; lastTimestamp := lastTimestamp ui |},
     [RequestAnimationFrame])
  else (ui, []).

(** [rect] is what [this.canvas.getBoundingClientRect()] returns. *)
Definition handleClick (event : MouseEvent) (rect : DOMRect) (rand : Random)
    (frameId : number) (ui : UserInterface)
  : UserInterface * Random * list Effect :=
  let x := (clientX event - left rect)%js in
  let y := (bottom rect - clientY event)%js in
  let (balls', rand') := addBall (balls ui) x y rand in
  let (ui', effects) :=
    startSimulationIfNeeded frameId
      {| balls := balls'; canvas := canvas ui;
         callbackId := callbackId ui; lastTimestamp := lastTimestamp ui |} in
  (ui', rand', effects).

(** [now] is what [Date.now()] returns. *)
Definition doSimulation (now frameId : number) (ui : UserInterface)
  : UserInterface * list Effect :=
  let last :=
    if falsy (lastTimestamp ui) then now
    else match lastTimestamp ui with Some t => t | None => now end in
  let duration := (now - last)%js in
  let balls1 := simulateManyBalls (balls ui) (duration / Fin 1000)%js in
  let balls2 := garbageCollect (canvas ui) balls1 in
  let drawn := List.map Draw (drawBalls (canvas ui) balls2) in
  if Nat.eqb (List.length balls2) 0 then
    ({| balls := balls2; canvas := canvas ui;
        callbackId := None; lastTimestamp := None |},
     drawn ++ [ConsoleLog "No more balls. Stopping."])
  else
    ({| balls := balls2; canvas := canvas ui;
        callbackId := Some frameId; lastTimestamp := Some now |},
     drawn ++ [RequestAnimationFrame]).

End Index.

(* ================================================================= *)
(** ** simulation.ts on binary64

    The same program on IEEE-754 doubles: [+], [-], [*], [/] and
    [Math.sqrt] round to nearest, ties to even, as the specification of
    binary64 in the standard library defines them; zeros are signed.
    [Math.log] is fdlibm's algorithm, the one behind [Math.log] in V8 and
    SpiderMonkey.  Doubles are written [dyadic m e], the double nearest to
    [m * 2^e]. *)

Module B64.

Import SpecFloat.

Definition prec : Z := 53.
Definition emax : Z := 1024.

Definition float : Type := spec_float.

(** The double nearest to [m * 2^e]. *)
Definition dyadic (m e : Z) : float := binary_normalize prec emax m e false.

Definition NaN : float := S754_nan.
Definition PInf : float := S754_infinity false.
Definition NInf : float := S754_infinity true.

Definition neg : float -> float := SFopp.
Definition add : float -> float -> float := SFadd prec emax.
Definition sub : float -> float -> float := SFsub prec emax.
Definition mul : float -> float -> float := SFmul prec emax.
Definition div : float -> float -> float := SFdiv prec emax.
Definition ltb : float -> float -> bool := SFltb.
Definition gtb (a b : float) : bool := SFltb b a.
Definition strict_eq : float -> float -> bool := SFeqb.
Definition Math_sqrt : float -> float := SFsqrt prec emax.

(** [Math.floor(x)] *)
Definition Math_floor (x : float) : float :=
  match x with
  | S754_finite s m e =>
      if (0 <=? e)%Z then x
      else
        let q := Z.shiftr (Zpos m) (- e) in
        let whole := Z.eqb (Z.shiftl q (- e)) (Zpos m) in
        if s then binary_normalize prec emax (- (if whole then q else q + 1)) 0 true
        else binary_normalize prec emax q 0 false
  | _ => x
  end.

Definition ln2_hi : float := dyadic 6243314766446592 (-53).
Definition ln2_lo : float := dyadic 7382048951581814 (-85).
Definition Lg1 : float := dyadic 6004799503160723 (-53).
Definition Lg2 : float := dyadic 7205759403686404 (-54).
Definition Lg3 : float := dyadic 5146971033736025 (-54).
Definition Lg4 : float := dyadic 8006390766270639 (-55).
Definition Lg5 : float := dyadic 6551322304906206 (-55).
Definition Lg6 : float := dyadic 5517391500461727 (-55).
Definition Lg7 : float := dyadic 5331612937900612 (-55).

(** [Math.log(x)] as fdlibm's [__ieee754_log] computes it. *)
Definition Math_log (x : float) : float :=
  match x with
  | S754_nan => NaN
  | S754_zero _ => NInf
  | S754_infinity false => PInf
  | S754_infinity true => NaN
  | S754_finite true _ _ => NaN
  | S754_finite false m e =>
      let d := Zpos (digits2_pos m) in
      let M := Z.shiftl (Zpos m) (prec - d) in
      let E := (e - (prec - d))%Z in
      let hx := Z.shiftr (M - 2 ^ 52) 32 in
      let i := (0x6a09c <=? hx)%Z in
      let k := (E + 52 + (if i then 1 else 0))%Z in
      let x' := dyadic M (if i then -53 else -52) in
      let f := sub x' (dyadic 1 0) in
      let dk := dyadic k 0 in
      if (Z.land (2 + hx) 0xfffff <? 3)%Z then
        if strict_eq f (dyadic 0 0) then
          if (k =? 0)%Z then dyadic 0 0
          else add (mul dk ln2_hi) (mul dk ln2_lo)
        else
          let R := mul (mul f f)
                     (sub (dyadic 1 (-1)) (mul (dyadic 6004799503160661 (-54)) f)) in
          if (k =? 0)%Z then sub f R
          else sub (mul dk ln2_hi) (sub (sub R (mul dk ln2_lo)) f)
      else
        let s := div f (add (dyadic 2 0) f) in
        let z := mul s s in
        let w := mul z z in
        let t1 := mul w (add Lg2 (mul w (add Lg4 (mul w Lg6)))) in
        let t2 := mul z (add Lg1 (mul w (add Lg3 (mul w (add Lg5 (mul w Lg7)))))) in
        let R := add t2 t1 in
        if (0x6147a <=? hx)%Z && (hx <=? 0x6b851)%Z then
          let hfsq := mul (mul (dyadic 1 (-1)) f) f in
          if (k =? 0)%Z then sub f (sub hfsq (mul s (add hfsq R)))
          else sub (mul dk ln2_hi)
                 (sub (sub hfsq (add (mul s (add hfsq R)) (mul dk ln2_lo))) f)
        else
          if (k =? 0)%Z then sub f (mul s (sub f R))
          else sub (mul dk ln2_hi) (sub (sub (mul s (sub f R)) (mul dk ln2_lo)) f)
  end.

(** Whether the finite [x] is a whole number, and which. *)
Definition is_integer (x : float) : bool :=
  match x with
  | S754_finite _ m e =>
      (0 <=? e)%Z || Z.eqb (Z.shiftl (Z.shiftr (Zpos m) (- e)) (- e)) (Zpos m)
  | S754_zero _ => true
  | _ => false
  end.

Definition integer_value (x : float) : Z :=
  match x with
  | S754_finite s m e => cond_Zopp s (Z.shiftl (Zpos m) e)
  | _ => 0
  end.

Definition is_odd_integer (x : float) : bool :=
  is_integer x && Z.odd (integer_value x).

(** The exponent [j] when the magnitude of the finite [x] is [2^j]. *)
Definition power_of_two (x : float) : option Z :=
  match x with
  | S754_finite _ m e =>
      let j := Z.log2 (Zpos m) in
      if Z.eqb (2 ^ j) (Zpos m) then Some (j + e)%Z else None
  | _ => None
  end.

Definition sign_bit (x : float) : bool :=
  match x with
  | S754_finite s _ _ | S754_zero s | S754_infinity s => s
  | S754_nan => false
  end.

(** [Math.pow(base, exponent)].  The special values are those of
    Number::exponentiate.  Of the finite cases only the exact ones are
    modelled, a base [+-2^j] raised to a whole exponent; simulation.ts asks
    for no other (its base is 0.5 and its exponent a result of
    [Math.floor]), and the model answers [NaN] for them. *)
Definition Math_pow (base exponent : float) : float :=
  match exponent with
  | S754_nan => NaN
  | S754_zero _ => dyadic 1 0
  | S754_infinity se =>
      match base with
      | S754_nan => NaN
      | _ =>
          match SFcompare (SFabs base) (dyadic 1 0) with
          | Some Gt => if se then dyadic 0 0 else PInf
          | Some Lt => if se then PInf else dyadic 0 0
          | _ => NaN
          end
      end
  | S754_finite se _ _ =>
      let odd := is_odd_integer exponent in
      match base with
      | S754_nan => NaN
      | S754_infinity sb =>
          if se then S754_zero (sb && odd) else S754_infinity (sb && odd)
      | S754_zero sb =>
          if se then S754_infinity (sb && odd) else S754_zero (sb && odd)
      | S754_finite sb _ _ =>
          match power_of_two base with
          | Some j =>
              if is_integer exponent then
                binary_round prec emax (sb && odd) 1 (j * integer_value exponent)
              else NaN
          | None => NaN
          end
      end
  end.

Declare Scope b64_scope.
Delimit Scope b64_scope with b64.
Infix "+" := add : b64_scope.
Infix "-" := sub : b64_scope.
Infix "*" := mul : b64_scope.
Infix "/" := div : b64_scope.
Notation "- a" := (neg a) : b64_scope.
Infix "<?" := ltb (at level 70) : b64_scope.
Infix ">?" := gtb (at level 70) : b64_scope.
Infix "===" := strict_eq (at level 70) : b64_scope.

Definition Ball : Type := (float * float * float * float)%type.

Definition COEFFICIENT_OF_RESTITUTION : float := dyadic 1 (-1).
Definition GRAVITY : float := dyadic (-1000) 0.

Definition timeToImpact (ball : Ball) : float :=
  let '(x, y, x_, y_) := ball in
  ((- y_ - Math_sqrt (y_ * y_ - dyadic 2 0 * GRAVITY * y)) / GRAVITY)%b64.

Definition flightTimeThisBounce (reboundVelocity : float) : float :=
  ((dyadic 2 0 * reboundVelocity) / - GRAVITY)%b64.

Definition timeToStillness (reboundVelocity : float) : float :=
  (flightTimeThisBounce reboundVelocity *
   (dyadic 1 0 + COEFFICIENT_OF_RESTITUTION /
                 (dyadic 1 0 - COEFFICIENT_OF_RESTITUTION)))%b64.

Definition timeForNBounces (reboundVelocity bounces : float) : float :=
  if (bounces === dyadic 0 0)%b64 then dyadic 0 0
  else
    ((flightTimeThisBounce reboundVelocity *
      Math_pow (dyadic 1 0 - COEFFICIENT_OF_RESTITUTION) bounces) /
     (dyadic 1 0 - COEFFICIENT_OF_RESTITUTION))%b64.

Definition numberOfBouncesInPeriod (reboundVelocity period : float) : float :=
  Math_floor
    (Math_log
       (dyadic 1 0 -
        ((dyadic 1 0 - COEFFICIENT_OF_RESTITUTION) * period) /
        flightTimeThisBounce reboundVelocity) /
     Math_log COEFFICIENT_OF_RESTITUTION)%b64.

Definition simulateWithoutImpacts (ball : Ball) (seconds : float) : Ball :=
  let '(x, y, x_, y_) := ball in
  let y' := (y + y_ * seconds + dyadic 1 (-1) * GRAVITY * seconds * seconds)%b64 in
  let y_' := (y_ + GRAVITY * seconds)%b64 in
  let x' := (x + x_ * seconds)%b64 in
  (x', y', x_, y_').

Definition simulateAfterImpact (ball : Ball) (seconds : float) : Ball :=
  let '(x, y, x_, y_) := ball in
  let reboundVelocity := y_ in
  if (timeToStillness reboundVelocity <? seconds)%b64 then
    ((x + x_ * seconds)%b64, dyadic 0 0, x_, dyadic 0 0)
  else
    let bounces := numberOfBouncesInPeriod reboundVelocity seconds in
    let bounceTime := timeForNBounces reboundVelocity bounces in
    simulateWithoutImpacts
      ((x + x_ * bounceTime)%b64,
       dyadic 0 0,
       x_,
       (reboundVelocity * Math_pow COEFFICIENT_OF_RESTITUTION bounces)%b64)
      (seconds - bounceTime)%b64.

Definition simulateSingleBall (ball : Ball) (seconds : float) : Ball :=
  let tti := timeToImpact ball in
  if (tti >? seconds)%b64 then
    simulateWithoutImpacts ball seconds
  else
    let '(x, y, x_, y_) := simulateWithoutImpacts ball tti in
    simulateAfterImpact
      (x, y, x_, (- COEFFICIENT_OF_RESTITUTION * y_)%b64)
      (seconds - tti)%b64.

(** Components of a ball. *)
Definition ball_x (ball : Ball) : float := let '(x, y, x_, y_) := ball in x.
Definition ball_y (ball : Ball) : float := let '(x, y, x_, y_) := ball in y.
Definition ball_x_ (ball : Ball) : float := let '(x, y, x_, y_) := ball in x_.
Definition ball_y_ (ball : Ball) : float := let '(x, y, x_, y_) := ball in y_.

(** The post-impact rebound velocity of a ball, as [simulateSingleBall]
    computes it before handing over to [simulateAfterImpact]. *)
Definition reboundVelocityAfterImpact (ball : Ball) : float :=
  let '(x, y, x_, y_) := simulateWithoutImpacts ball (timeToImpact ball) in
  (- COEFFICIENT_OF_RESTITUTION * y_)%b64.

(** A zero or a finite non-zero double. *)
Definition is_finite (x : float) : bool :=
  match x with
  | S754_zero _ | S754_finite _ _ _ => true
  | _ => false
  end.

(** The rational number a finite double stands for. *)
Definition exact (x : float) : QArith_base.Q :=
  match x with
  | S754_finite s m e =>
      QArith_base.Qmult (QArith_base.inject_Z (cond_Zopp s (Zpos m)))
        (QArith_base.Qpower (QArith_base.inject_Z 2) e)
  | _ => QArith_base.inject_Z 0
  end.

(** Height of the projectile at time [t], [y + y' t + 1/2 y'' t^2], and its
    vertical mechanical energy per unit mass, [1/2 vy^2 - g y], both taken on
    rationals, without rounding. *)
Definition exactHeightAt (y y_ : float) (t : QArith_base.Q) : QArith_base.Q :=
  QArith_base.Qplus
    (QArith_base.Qplus (exact y) (QArith_base.Qmult (exact y_) t))
    (QArith_base.Qmult
       (QArith_base.Qmult
          (QArith_base.Qmult (exact (dyadic 1 (-1))) (exact GRAVITY)) t)
       t).






End B64.

(* ================================================================= *)
(** ** Vocabulary of the properties *)

(** Components of a ball. *)
Definition ball_x (ball : Ball) : number := let '(x, y, x_, y_) := ball in x.
Definition ball_y (ball : Ball) : number := let '(x, y, x_, y_) := ball in y.
Definition ball_x_ (ball : Ball) : number := let '(x, y, x_, y_) := ball in x_.
Definition ball_y_ (ball : Ball) : number := let '(x, y, x_, y_) := ball in y_.

(** Whether some component of the ball is [NaN]. *)
Definition hasNaN (ball : Ball) : bool :=
  let '(x, y, x_, y_) := ball in
  isNaN x || isNaN y || isNaN x_ || isNaN y_.

(** The post-impact rebound velocity of a ball, as [simulateSingleBall]
    computes it before handing over to [simulateAfterImpact]. *)
Definition reboundVelocityAfterImpact (ball : Ball) : number :=
  let '(x, y, x_, y_) := simulateWithoutImpacts ball (timeToImpact ball) in
  (- COEFFICIENT_OF_RESTITUTION * y_)%js.

(** The root of [0 = y + y' t - 500 t^2] that [timeToImpact] computes. *)
Definition impactTime (y y_ : R) : R := (y_ + sqrt (y_ * y_ + 2000 * y)) / 1000.




(** Cumulative flight time of the first [n] bounces of a train whose first
    bounce lasts [f] and whose bounces shrink by the ratio [r]:
    [f * (1 + r + ... + r^(n-1))]. *)
Fixpoint bounceSum (f r : R) (n : nat) : R :=
  match n with
  | O => 0
  | S k => bounceSum f r k + f * r ^ k
  end.

(** The closed form of that sum as the specification writes it,
    [flightTimeThisBounce(v) * (1 - r^n) / (1 - r)], on the program's
    numbers and for any integer [n]. *)
Definition geometricSeriesTime (reboundVelocity : number) (n : Z) : number :=
  (flightTimeThisBounce reboundVelocity *
   (Fin 1 - Math_pow COEFFICIENT_OF_RESTITUTION (Fin (IZR n))) /
   (Fin 1 - COEFFICIENT_OF_RESTITUTION))%js.

(** Flight time the code attributes to [n] skipped bounces. *)
Definition skippedTime (v : R) (n : nat) : R :=
  match n with
  | O => 0
  | S k => v / 500 * (1 / 2) ^ k
  end.


(** The centres of the arcs in a list of canvas calls, in order. *)
Definition arcCentres (calls : list Index.CanvasCall) : list (number * number) :=
  flat_map (fun call => match call with
                        | Index.Arc x y _ _ _ => [(x, y)]
                        | _ => []
                        end) calls.

(** A ball with finite position whose [x] lies strictly between 0 and [w]. *)
Definition inView (w : R) (ball : Ball) : Prop :=
  exists x : R, ball_x ball = Fin x /\ 0 < x < w.

(** A ball with finite components lying still on the floor. *)
Definition atRest (ball : Ball) : Prop :=
  exists x x_ : R, ball = (Fin x, Fin 0, Fin x_, Fin 0).

(** Every sample of the stream is a finite number in [0, 1). *)
Definition unitSamples (rand : Index.Random) : Prop :=
  forall n : nat, exists u : R, rand n = Fin u /\ 0 <= u < 1.

(* ================================================================= *)
(** ** Facts about the number operators *)

Section NumberFacts.

Lemma is_zero_true (r : R) : r = 0 -> is_zero r = true.
Proof. intros ->. unfold is_zero. destruct (Req_dec_T 0 0); congruence. Qed.

Lemma is_zero_false (r : R) : r <> 0 -> is_zero r = false.
Proof. intros H. unfold is_zero. destruct (Req_dec_T r 0); congruence. Qed.

Lemma is_pos_true (r : R) : 0 < r -> is_pos r = true.
Proof. intros H. unfold is_pos. destruct (Rlt_dec 0 r); [reflexivity | contradiction]. Qed.

Lemma is_neg_true (r : R) : r < 0 -> is_neg r = true.
Proof. intros H. unfold is_neg. destruct (Rlt_dec r 0); [reflexivity | contradiction]. Qed.

Lemma is_neg_false (r : R) : 0 <= r -> is_neg r = false.
Proof. intros H. unfold is_neg. destruct (Rlt_dec r 0); [lra | reflexivity]. Qed.

Lemma neg_Fin (a : R) : (- Fin a)%js = Fin (- a).
Proof. reflexivity. Qed.

Lemma add_Fin (a b : R) : (Fin a + Fin b)%js = Fin (a + b).
Proof. reflexivity. Qed.

Lemma sub_Fin (a b : R) : (Fin a - Fin b)%js = Fin (a - b).
Proof. reflexivity. Qed.

Lemma mul_Fin (a b : R) : (Fin a * Fin b)%js = Fin (a * b).
Proof. reflexivity. Qed.

Lemma div_Fin (a b : R) : b <> 0 -> (Fin a / Fin b)%js = Fin (a / b).
Proof. intros H. unfold div. now rewrite (is_zero_false b H). Qed.

Lemma div_zero_zero : (Fin 0 / Fin 0)%js = NaN.
Proof. unfold div. now rewrite (is_zero_true 0 eq_refl). Qed.

Lemma ltb_Fin_true (a b : R) : a < b -> (Fin a <? Fin b)%js = true.
Proof. intros H. unfold ltb. destruct (Rlt_dec a b); [reflexivity | contradiction]. Qed.

Lemma ltb_Fin_false (a b : R) : b <= a -> (Fin a <? Fin b)%js = false.
Proof. intros H. unfold ltb. destruct (Rlt_dec a b); [lra | reflexivity]. Qed.

Lemma leb_Fin_iff (a b : R) : (Fin a <=? Fin b)%js = true <-> a <= b.
Proof.
  unfold leb, ltb. destruct (Rlt_dec b a); simpl; split; intros H;
    try discriminate; try reflexivity; lra.
Qed.

Lemma ltb_Fin_inv (a b : R) : (Fin a <? Fin b)%js = true -> a < b.
Proof. unfold ltb. destruct (Rlt_dec a b); [trivial | discriminate]. Qed.

Lemma strict_eq_Fin_true (a b : R) : a = b -> (Fin a === Fin b)%js = true.
Proof. intros H. unfold strict_eq. destruct (Req_dec_T a b); [reflexivity | contradiction]. Qed.

Lemma strict_eq_Fin_false (a b : R) : a <> b -> (Fin a === Fin b)%js = false.
Proof. intros H. unfold strict_eq. destruct (Req_dec_T a b); [contradiction | reflexivity]. Qed.

Lemma sqrt_Fin (a : R) : 0 <= a -> Math_sqrt (Fin a) = Fin (sqrt a).
Proof. intros H. unfold Math_sqrt. now rewrite (is_neg_false a H). Qed.

Lemma log_Fin (a : R) : 0 < a -> Math_log (Fin a) = Fin (ln a).
Proof.
  intros H. unfold Math_log.
  rewrite is_neg_false by lra. now rewrite is_zero_false by lra.
Qed.

Lemma log_zero : Math_log (Fin 0) = NInf.
Proof.
  unfold Math_log. rewrite is_neg_false by lra. now rewrite is_zero_true.
Qed.

Lemma pow_Fin (b e : R) : 0 < b -> Math_pow (Fin b) (Fin e) = Fin (Rpower b e).
Proof.
  intros Hb. unfold Math_pow, is_zero at 1.
  destruct (Req_dec_T e 0) as [-> | He].
  - unfold Rpower. now rewrite Rmult_0_l, exp_0.
  - rewrite is_zero_false by lra. now rewrite is_pos_true.
Qed.

Lemma pow_Fin_nat (b : R) (n : nat) :
  0 < b -> Math_pow (Fin b) (Fin (INR n)) = Fin (b ^ n).
Proof. intros Hb. rewrite pow_Fin by assumption. now rewrite Rpower_pow. Qed.

Lemma pow_small_PInf (b : R) : Rabs b < 1 -> Math_pow (Fin b) PInf = Fin 0.
Proof.
  intros H. unfold Math_pow.
  destruct (Rlt_dec 1 (Rabs b)); [lra |].
  destruct (Req_dec_T (Rabs b) 1); [lra | reflexivity].
Qed.

Lemma pow_NaN (b : number) : Math_pow b NaN = NaN.
Proof. reflexivity. Qed.

(** NaN is absorbing for the arithmetic operators. *)
Lemma add_NaN_l (a : number) : (NaN + a)%js = NaN.
Proof. reflexivity. Qed.

Lemma add_NaN_r (a : number) : (a + NaN)%js = NaN.
Proof. now destruct a. Qed.

Lemma sub_NaN_l (a : number) : (NaN - a)%js = NaN.
Proof. reflexivity. Qed.

Lemma sub_NaN_r (a : number) : (a - NaN)%js = NaN.
Proof. now destruct a. Qed.

Lemma mul_NaN_l (a : number) : (NaN * a)%js = NaN.
Proof. reflexivity. Qed.

Lemma mul_NaN_r (a : number) : (a * NaN)%js = NaN.
Proof. now destruct a. Qed.

Lemma div_NaN_l (a : number) : (NaN / a)%js = NaN.
Proof. reflexivity. Qed.

Lemma div_NaN_r (a : number) : (a / NaN)%js = NaN.
Proof. now destruct a. Qed.

Lemma ltb_NaN_l (a : number) : (NaN <? a)%js = false.
Proof. reflexivity. Qed.

Lemma ltb_NaN_r (a : number) : (a <? NaN)%js = false.
Proof. now destruct a. Qed.

End NumberFacts.

Create Rewrite HintDb js.
Create Rewrite HintDb jsnan.
#[local] Hint Rewrite neg_Fin add_Fin sub_Fin mul_Fin : js.
#[local] Hint Rewrite add_NaN_l add_NaN_r sub_NaN_l sub_NaN_r mul_NaN_l mul_NaN_r
  div_NaN_l div_NaN_r ltb_NaN_l ltb_NaN_r pow_NaN : jsnan.
#[local] Hint Rewrite div_Fin using lra : js.

(** Closes a goal [Fin a = Fin b], or a tuple of such, by real arithmetic. *)
Ltac fin_eq :=
  repeat match goal with
  | |- ?a = ?a => reflexivity
  | |- (_, _) = (_, _) => apply f_equal2
  | |- Fin _ = Fin _ => apply f_equal; first [lra | field; lra | nra]
  end.

Ltac js_norm :=
  unfold COEFFICIENT_OF_RESTITUTION, GRAVITY; autorewrite with js.

(* ================================================================= *)
(** ** The trajectory functions on finite numbers *)

Section ClosedForms.

Lemma flightTimeThisBounce_Fin (v : R) :
  flightTimeThisBounce (Fin v) = Fin (v / 500).
Proof. unfold flightTimeThisBounce. js_norm. fin_eq. Qed.

Lemma timeToStillness_Fin (v : R) :
  timeToStillness (Fin v) = Fin (v / 250).
Proof.
  unfold timeToStillness. rewrite flightTimeThisBounce_Fin. js_norm. fin_eq.
Qed.

Lemma timeToImpact_Fin (x y x_ y_ : R) :
  0 <= y_ * y_ + 2000 * y ->
  timeToImpact (Fin x, Fin y, Fin x_, Fin y_)
  = Fin ((y_ + sqrt (y_ * y_ + 2000 * y)) / 1000).
Proof.
  intros Hd. unfold timeToImpact. js_norm.
  replace (y_ * y_ - 2 * -1000 * y) with (y_ * y_ + 2000 * y) by lra.
  rewrite sqrt_Fin by assumption. js_norm. fin_eq.
Qed.

Lemma simulateWithoutImpacts_Fin (x y x_ y_ s : R) :
  simulateWithoutImpacts (Fin x, Fin y, Fin x_, Fin y_) (Fin s)
  = (Fin (x + x_ * s), Fin (y + y_ * s - 500 * s * s), Fin x_, Fin (y_ - 1000 * s)).
Proof. unfold simulateWithoutImpacts. js_norm. fin_eq. Qed.

End ClosedForms.

(* ================================================================= *)
(** ** The bounce series *)

Section BounceSeries.

Lemma bounceSum_closed (f r : R) (n : nat) :
  r <> 1 -> bounceSum f r n = f * (1 - r ^ n) / (1 - r).
Proof.
  intros Hr. induction n as [|k IH]; simpl.
  - field. lra.
  - rewrite IH. field. lra.
Qed.

Lemma geometricSeriesTime_Fin (v : R) (n : Z) :
  geometricSeriesTime (Fin v) n
  = Fin (v / 500 * (1 - Rpower (1 / 2) (IZR n)) / (1 / 2)).
Proof.
  unfold geometricSeriesTime. rewrite flightTimeThisBounce_Fin.
  unfold COEFFICIENT_OF_RESTITUTION. rewrite pow_Fin by lra.
  js_norm. fin_eq.
Qed.

Lemma geometricSeriesTime_bounceSum (v : R) (n : nat) :
  geometricSeriesTime (Fin v) (Z.of_nat n) = Fin (bounceSum (v / 500) (1 / 2) n).
Proof.
  rewrite geometricSeriesTime_Fin, bounceSum_closed by lra.
  rewrite <- INR_IZR_INZ, Rpower_pow by lra. fin_eq.
Qed.

(** What the code computes for a whole, non-zero number of bounces: the
    flight time of the [n]-th bounce alone. *)
Lemma timeForNBounces_Fin (v : R) (n : nat) :
  timeForNBounces (Fin v) (Fin (INR (S n))) = Fin (v / 500 * (1 / 2) ^ n).
Proof.
  unfold timeForNBounces.
  rewrite strict_eq_Fin_false by (pose proof (pos_INR n); rewrite S_INR; lra).
  rewrite flightTimeThisBounce_Fin. js_norm.
  rewrite pow_Fin_nat by lra. js_norm. simpl pow.
  replace (1 - 1 / 2) with (1 / 2) by lra. fin_eq.
Qed.

Lemma timeForNBounces_zero (v : number) : timeForNBounces v (Fin 0) = Fin 0.
Proof. unfold timeForNBounces. now rewrite strict_eq_Fin_true. Qed.

End BounceSeries.

(* ================================================================= *)
(** ** Counting bounces: logarithm and floor *)

Section BounceCount.

Lemma ln_half_neg : ln (1 / 2) < 0.
Proof. rewrite <- ln_1. apply ln_increasing; lra. Qed.

Lemma exp_le_iff (a b : R) : exp a <= exp b <-> a <= b.
Proof.
  split; intros H.
  - destruct (Rle_or_lt a b) as [|Hlt]; [assumption |].
    apply exp_increasing in Hlt. lra.
  - destruct H as [H | ->]; [left; now apply exp_increasing | right; reflexivity].
Qed.

(** [x <= (1/2)^m] exactly when [m <= log x / log (1/2)]. *)
Lemma half_power_le_iff (x m : R) :
  0 < x -> x <= Rpower (1 / 2) m <-> m <= ln x / ln (1 / 2).
Proof.
  intros Hx. pose proof ln_half_neg as HL.
  unfold Rpower. rewrite <- (exp_ln x Hx) at 1. rewrite exp_le_iff.
  set (L := ln (1 / 2)) in *. set (q := ln x / L).
  assert (Hq : ln x = q * L) by (unfold q; field; lra).
  rewrite Hq. split; intros H; nra.
Qed.


Lemma numberOfBouncesInPeriod_Fin (v p : R) :
  0 < v -> 250 * p < v ->
  numberOfBouncesInPeriod (Fin v) (Fin p)
  = Fin (IZR (Zfloor (ln (1 - 250 * p / v) / ln (1 / 2)))).
Proof.
  intros Hv Hp. pose proof ln_half_neg as HL.
  assert (Hx : 0 < 1 - 250 * p / v).
  { apply Rlt_0_minus. apply Rmult_lt_reg_r with v; [assumption |].
    replace (250 * p / v * v) with (250 * p) by (field; lra). lra. }
  unfold numberOfBouncesInPeriod. rewrite flightTimeThisBounce_Fin.
  unfold COEFFICIENT_OF_RESTITUTION. autorewrite with js.
  replace ((1 - 1 / 2) * p / (v / 500)) with (250 * p / v) by (field; lra).
  rewrite !log_Fin by lra. rewrite div_Fin by lra. reflexivity.
Qed.

(** The floor of the logarithm to base 1/2, read off from the powers of 1/2
    on either side. *)
Lemma floor_log_half (x : R) (n : nat) :
  (1 / 2) ^ S n < x <= (1 / 2) ^ n ->
  Zfloor (ln x / ln (1 / 2)) = Z.of_nat n.
Proof.
  intros [Hlo Hhi].
  assert (Hx : 0 < x).
  { apply Rlt_trans with ((1 / 2) ^ S n); [apply pow_lt; lra | assumption]. }
  apply Zfloor_eq. split.
  - apply half_power_le_iff; [assumption |].
    rewrite <- INR_IZR_INZ, Rpower_pow by lra. assumption.
  - apply Rnot_le_lt. intros H.
    replace (IZR (Z.of_nat n) + 1) with (INR (S n)) in H
      by (rewrite S_INR, INR_IZR_INZ; reflexivity).
    apply half_power_le_iff in H; [| assumption].
    rewrite Rpower_pow in H by lra. lra.
Qed.

End BounceCount.

(* ================================================================= *)
(** ** The integrator on finite numbers *)

Section Integrator.

Lemma timeForNBounces_nat (v : R) (n : nat) :
  timeForNBounces (Fin v) (Fin (IZR (Z.of_nat n))) = Fin (skippedTime v n).
Proof.
  rewrite <- INR_IZR_INZ. destruct n as [|k].
  - apply timeForNBounces_zero.
  - apply timeForNBounces_Fin.
Qed.

Lemma simulateSingleBall_free (x y x_ y_ s : R) :
  0 <= y_ * y_ + 2000 * y ->
  s < impactTime y y_ ->
  simulateSingleBall (Fin x, Fin y, Fin x_, Fin y_) (Fin s)
  = (Fin (x + x_ * s), Fin (y + y_ * s - 500 * s * s), Fin x_, Fin (y_ - 1000 * s)).
Proof.
  intros Hd Hs. unfold simulateSingleBall.
  rewrite timeToImpact_Fin by assumption. fold (impactTime y y_).
  unfold gtb. rewrite ltb_Fin_true by assumption.
  apply simulateWithoutImpacts_Fin.
Qed.

Lemma simulateSingleBall_impact (x y x_ y_ s : R) :
  0 <= y_ * y_ + 2000 * y ->
  impactTime y y_ <= s ->
  simulateSingleBall (Fin x, Fin y, Fin x_, Fin y_) (Fin s)
  = simulateAfterImpact
      (Fin (x + x_ * impactTime y y_),
       Fin (y + y_ * impactTime y y_ - 500 * impactTime y y_ * impactTime y y_),
       Fin x_,
       Fin (- (1 / 2) * (y_ - 1000 * impactTime y y_)))
      (Fin (s - impactTime y y_)).
Proof.
  intros Hd Hs. unfold simulateSingleBall.
  rewrite timeToImpact_Fin by assumption. fold (impactTime y y_).
  unfold gtb. rewrite ltb_Fin_false by assumption.
  rewrite simulateWithoutImpacts_Fin. js_norm. reflexivity.
Qed.

Lemma simulateAfterImpact_still (x x_ v s : R) (y : number) :
  v / 250 < s ->
  simulateAfterImpact (Fin x, y, Fin x_, Fin v) (Fin s)
  = (Fin (x + x_ * s), Fin 0, Fin x_, Fin 0).
Proof.
  intros H. unfold simulateAfterImpact.
  rewrite timeToStillness_Fin, ltb_Fin_true by assumption.
  js_norm. reflexivity.
Qed.

Lemma simulateAfterImpact_skip (x x_ v s : R) (y : number) (n : nat) :
  0 < v -> 250 * s < v ->
  (1 / 2) ^ S n < 1 - 250 * s / v <= (1 / 2) ^ n ->
  simulateAfterImpact (Fin x, y, Fin x_, Fin v) (Fin s)
  = simulateWithoutImpacts
      (Fin (x + x_ * skippedTime v n), Fin 0, Fin x_, Fin (v * (1 / 2) ^ n))
      (Fin (s - skippedTime v n)).
Proof.
  intros Hv Hs Hn. unfold simulateAfterImpact.
  rewrite timeToStillness_Fin, ltb_Fin_false by lra.
  rewrite numberOfBouncesInPeriod_Fin by assumption.
  rewrite (floor_log_half _ n Hn), timeForNBounces_nat.
  unfold COEFFICIENT_OF_RESTITUTION.
  rewrite <- INR_IZR_INZ, pow_Fin_nat by lra.
  js_norm. reflexivity.
Qed.

Lemma impactTime_value (y y_ d : R) :
  0 <= d -> y_ * y_ + 2000 * y = d * d -> impactTime y y_ = (y_ + d) / 1000.
Proof.
  intros Hd H. unfold impactTime. rewrite H, sqrt_square by assumption.
  reflexivity.
Qed.

End Integrator.

(* ================================================================= *)
(** ** Properties *)

(** C6.  With [g = -1000] and [r = 0.5], the ball [(0, 2000, 0, 0)] advanced
    by 3 seconds is [(0, 500, 0, 0)]: it falls for 2 s, bounces once and is
    at the stationary peak of its first rebound, at height [2000 * r^2]. *)
Theorem scenario_C_stationary_peak :
  simulateSingleBall (Fin 0, Fin 2000, Fin 0, Fin 0) (Fin 3)
  = (Fin 0, Fin 500, Fin 0, Fin 0)
  /\ (Fin 2000 * COEFFICIENT_OF_RESTITUTION * COEFFICIENT_OF_RESTITUTION)%js
     = Fin 500.
Proof.
  split; [| js_norm; fin_eq].
  assert (Ht : impactTime 2000 0 = 2).
  { rewrite (impactTime_value 2000 0 2000); lra. }
  rewrite simulateSingleBall_impact by lra.
  rewrite Ht.
  replace (- (1 / 2) * (0 - 1000 * 2)) with 1000 by lra.
  replace (3 - 2) with 1 by lra.
  rewrite (simulateAfterImpact_skip _ _ _ _ _ 0%nat) by (simpl; lra).
  rewrite simulateWithoutImpacts_Fin. simpl. fin_eq.
Qed.

Lemma two_eq_INR : 2 = INR 2.
Proof. simpl. lra. Qed.

(** C1.  [timeForNBounces] is not the finite geometric sum.  For two bounces
    at rebound velocity 1000 the code returns 1, the flight time of the second
    bounce alone, where the cumulative time of the first two bounces,
    [2 + 1 = 2 * (1 - r^2) / (1 - r)], is 3. *)
Theorem timeForNBounces_two_bounces :
  timeForNBounces (Fin 1000) (Fin 2) = Fin 1
  /\ flightTimeThisBounce (Fin 1000) = Fin 2
  /\ geometricSeriesTime (Fin 1000) 2 = Fin 3
  /\ bounceSum 2 (1 / 2) 2 = 3.
Proof.
  split; [| split; [| split]].
  - rewrite two_eq_INR at 1. rewrite timeForNBounces_Fin. simpl. fin_eq.
  - rewrite flightTimeThisBounce_Fin. fin_eq.
  - change 2%Z with (Z.of_nat 2).
    rewrite (geometricSeriesTime_bounceSum 1000 2). simpl. fin_eq.
  - simpl. lra.
Qed.

(** The code and the geometric sum agree for no bounce and for one bounce,
    and for no other count. *)
Theorem timeForNBounces_agrees_iff (v : R) (n : nat) :
  v <> 0 ->
  timeForNBounces (Fin v) (Fin (INR n)) = geometricSeriesTime (Fin v) (Z.of_nat n)
  <-> (n <= 1)%nat.
Proof.
  intros Hv. rewrite geometricSeriesTime_bounceSum, bounceSum_closed by lra.
  destruct n as [|k].
  - simpl INR. rewrite timeForNBounces_zero. split; [lia |]. intros _. simpl. fin_eq.
  - rewrite timeForNBounces_Fin. simpl pow.
    replace (v / 500 * (1 - 1 / 2 * (1 / 2) ^ k) / (1 - 1 / 2))
      with (2 * (v / 500) - v / 500 * (1 / 2) ^ k) by field.
    split.
    + intros H. injection H as H.
      assert (Hone : (1 / 2) ^ k = 1).
      { generalize dependent ((1 / 2) ^ k). intros w H.
        apply Rmult_eq_reg_l with (v / 500).
        - lra.
        - intros E. apply Hv. lra. }
      destruct k as [|j]; [lia |]. simpl in Hone.
      assert (Hj : (1 / 2) ^ j <= 1).
      { apply Rle_trans with (1 ^ j); [apply pow_incr; split; lra |].
        rewrite pow1. lra. }
      lra.
    + intros Hle. assert (k = 0%nat) as -> by lia. simpl. fin_eq.
Qed.

(** C2.  The ball can come back below the floor.  Dropped from 2000 and
    advanced by 5.25 s, the ball lands at 2 s, two whole bounces fit in the
    remaining 3.25 s, the code skips 1 s for them instead of 3 s, and the
    last free flight runs for 2.25 s from the floor at speed 250. *)
Theorem skip_sends_ball_below_floor :
  simulateSingleBall (Fin 0, Fin 2000, Fin 0, Fin 0) (Fin (21 / 4))
  = (Fin 0, Fin (- (7875 / 4)), Fin 0, Fin (- 2000)).
Proof.
  assert (Ht : impactTime 2000 0 = 2).
  { rewrite (impactTime_value 2000 0 2000); lra. }
  rewrite simulateSingleBall_impact by lra.
  rewrite Ht.
  replace (- (1 / 2) * (0 - 1000 * 2)) with 1000 by lra.
  replace (21 / 4 - 2) with (13 / 4) by lra.
  rewrite (simulateAfterImpact_skip _ _ _ _ _ 2%nat) by (simpl; lra).
  rewrite simulateWithoutImpacts_Fin. simpl. fin_eq.
Qed.

(** The same defect at the boundary [seconds = timeToStillness]: the bounce
    count is [+Infinity], the skipped time is 0, and the whole remaining time
    is spent in free fall from the floor. *)
Lemma simulateAfterImpact_at_stillness (x x_ v : R) (y : number) :
  0 < v ->
  simulateAfterImpact (Fin x, y, Fin x_, Fin v) (Fin (v / 250))
  = (Fin (x + x_ * (v / 250)), Fin (- (500 * (v / 250) * (v / 250))),
     Fin x_, Fin (- (1000 * (v / 250)))).
Proof.
  intros Hv. pose proof ln_half_neg as HL.
  unfold simulateAfterImpact.
  rewrite timeToStillness_Fin, ltb_Fin_false by lra.
  unfold numberOfBouncesInPeriod, timeForNBounces.
  rewrite flightTimeThisBounce_Fin.
  unfold COEFFICIENT_OF_RESTITUTION. autorewrite with js.
  replace (1 - (1 - 1 / 2) * (v / 250) / (v / 500)) with 0 by (field; lra).
  rewrite log_zero, log_Fin by lra.
  assert (E : (NInf / Fin (ln (1 / 2)))%js = PInf).
  { unfold div. now rewrite is_neg_true. }
  rewrite !E. cbn [Math_floor strict_eq].
  rewrite !pow_small_PInf by (rewrite Rabs_pos_eq; lra).
  autorewrite with js. rewrite simulateWithoutImpacts_Fin. fin_eq.
Qed.










Lemma simulateWithoutImpacts_x_ (ball : Ball) (seconds : number) :
  ball_x_ (simulateWithoutImpacts ball seconds) = ball_x_ ball.
Proof. destruct ball as [[[x y] x_] y_]. reflexivity. Qed.

Lemma simulateAfterImpact_x_ (ball : Ball) (seconds : number) :
  ball_x_ (simulateAfterImpact ball seconds) = ball_x_ ball.
Proof.
  destruct ball as [[[x y] x_] y_]. unfold simulateAfterImpact.
  destruct (timeToStillness y_ <? seconds)%js; [reflexivity |].
  now rewrite simulateWithoutImpacts_x_.
Qed.

Lemma simulateSingleBall_x_ (ball : Ball) (seconds : number) :
  ball_x_ (simulateSingleBall ball seconds) = ball_x_ ball.
Proof.
  unfold simulateSingleBall.
  destruct (timeToImpact ball >? seconds)%js.
  - apply simulateWithoutImpacts_x_.
  - pose proof (simulateWithoutImpacts_x_ ball (timeToImpact ball)) as H.
    destruct (simulateWithoutImpacts ball (timeToImpact ball)) as [[[x y] x_] y_].
    rewrite simulateAfterImpact_x_. exact H.
Qed.

(** C9.  The horizontal velocity of the ball that [simulateSingleBall]
    returns is the horizontal velocity of the ball it was given, whatever the
    ball, the time step and the number of bounces. *)
Theorem horizontal_velocity_invariant (ball : Ball) (seconds : number) :
  ball_x_ (simulateSingleBall ball seconds) = ball_x_ ball.
Proof. apply simulateSingleBall_x_. Qed.



(** Scenario A of the test suite: one second of free fall from 2000. *)
Lemma scenario_A_free_fall :
  simulateSingleBall (Fin 0, Fin 2000, Fin 0, Fin 0) (Fin 1)
  = (Fin 0, Fin 1500, Fin 0, Fin (-1000)).
Proof.
  rewrite simulateSingleBall_free.
  - fin_eq.
  - lra.
  - rewrite (impactTime_value 2000 0 2000); lra.
Qed.

Lemma timeToImpact_NaN (x y x_ y_ : number) :
  isNaN y || isNaN y_ = true -> timeToImpact (x, y, x_, y_) = NaN.
Proof.
  intros H. unfold timeToImpact.
  destruct y; destruct y_; try discriminate H;
    autorewrite with jsnan; try reflexivity;
    unfold GRAVITY; cbn [neg mul add sub Math_sqrt div];
    autorewrite with jsnan; reflexivity.
Qed.

Lemma simulateWithoutImpacts_NaN (x y x_ y_ : number) :
  simulateWithoutImpacts (x, y, x_, y_) NaN = (NaN, NaN, x_, NaN).
Proof. unfold simulateWithoutImpacts. now autorewrite with jsnan. Qed.

Lemma simulateAfterImpact_NaN (x y x_ : number) :
  simulateAfterImpact (x, y, x_, NaN) NaN = (NaN, NaN, x_, NaN).
Proof.
  unfold simulateAfterImpact. autorewrite with jsnan.
  now rewrite simulateWithoutImpacts_NaN.
Qed.

Lemma simulateWithoutImpacts_x_NaN (y x_ y_ s : number) :
  ball_x (simulateWithoutImpacts (NaN, y, x_, y_) s) = NaN.
Proof. reflexivity. Qed.

Lemma simulateAfterImpact_x_NaN (y x_ y_ s : number) :
  ball_x (simulateAfterImpact (NaN, y, x_, y_) s) = NaN.
Proof.
  unfold simulateAfterImpact.
  destruct (timeToStillness y_ <? s)%js; reflexivity.
Qed.

Lemma hasNaN_x (ball : Ball) : ball_x ball = NaN -> hasNaN ball = true.
Proof. destruct ball as [[[x y] x_] y_]. simpl. now intros ->. Qed.

Lemma hasNaN_x_ (ball : Ball) : ball_x_ ball = NaN -> hasNaN ball = true.
Proof.
  destruct ball as [[[x y] x_] y_]. simpl. intros ->.
  now rewrite !orb_true_r.
Qed.

(** The guard of the earlier variant is the only difference between the two
    versions of [timeToImpact]. *)
Lemma approximate_timeToImpact_guard (ball : Ball) :
  Approximate.timeToImpact ball
  = if hasNaN ball then Approximate.Throws ball
    else Approximate.Returns (timeToImpact ball).
Proof. destruct ball as [[[x y] x_] y_]. reflexivity. Qed.

(** C3, as stated, fails: given a ball whose height is [NaN], both functions
    return, and what they return is [NaN]. *)
Lemma NaN_height_is_returned :
  timeToImpact (Fin 0, NaN, Fin 0, Fin 0) = NaN
  /\ simulateSingleBall (Fin 0, NaN, Fin 0, Fin 0) (Fin 1)
     = (NaN, NaN, Fin 0, NaN).
Proof. split; reflexivity. Qed.

(** C3, amended.  The functions of simulation.ts are total and signal no
    error.  [timeToImpact] returns [NaN] for a ball whose [y] or [vy] is
    [NaN], and [simulateSingleBall] then returns [(NaN, NaN, vx, NaN)]; it
    returns a ball with a [NaN] component whenever it is given one. *)
Theorem NaN_is_propagated (ball : Ball) (seconds : number) :
  hasNaN ball = true ->
  hasNaN (simulateSingleBall ball seconds) = true
  /\ (isNaN (ball_y ball) || isNaN (ball_y_ ball) = true ->
      timeToImpact ball = NaN
      /\ simulateSingleBall ball seconds = (NaN, NaN, ball_x_ ball, NaN)).
Proof.
  intros Hnan. destruct ball as [[[x y] x_] y_].
  assert (Hvert : isNaN y || isNaN y_ = true ->
            timeToImpact (x, y, x_, y_) = NaN
            /\ simulateSingleBall (x, y, x_, y_) seconds = (NaN, NaN, x_, NaN)).
  { intros H. pose proof (timeToImpact_NaN x y x_ y_ H) as Ht.
    split; [exact Ht |].
    unfold simulateSingleBall. rewrite Ht. unfold gtb.
    rewrite ltb_NaN_r, simulateWithoutImpacts_NaN.
    autorewrite with jsnan. apply simulateAfterImpact_NaN. }
  split; [| exact Hvert].
  destruct (isNaN y || isNaN y_) eqn:Hv.
  - destruct (Hvert eq_refl) as [_ ->]. reflexivity.
  - apply orb_false_elim in Hv. destruct Hv as [Hy Hy_].
    simpl in Hnan. rewrite Hy, Hy_, !orb_false_r in Hnan.
    apply orb_true_iff in Hnan. destruct Hnan as [Hx | Hx_].
    + apply hasNaN_x. destruct x; try discriminate Hx.
      unfold simulateSingleBall.
      destruct (timeToImpact (NaN, y, x_, y_) >? seconds)%js.
      * apply simulateWithoutImpacts_x_NaN.
      * unfold simulateWithoutImpacts. rewrite add_NaN_l.
        apply simulateAfterImpact_x_NaN.
    + apply hasNaN_x_. rewrite simulateSingleBall_x_.
      destruct x_; try discriminate Hx_. reflexivity.
Qed.

Lemma NaN_is_propagated_witness :
  hasNaN (simulateSingleBall (Fin 0, Fin 2000, Fin 0, NaN) (Fin 1)) = true
  /\ (isNaN (Fin 2000) || isNaN NaN = true ->
      timeToImpact (Fin 0, Fin 2000, Fin 0, NaN) = NaN
      /\ simulateSingleBall (Fin 0, Fin 2000, Fin 0, NaN) (Fin 1)
         = (NaN, NaN, Fin 0, NaN)).
Proof.
  apply (NaN_is_propagated (Fin 0, Fin 2000, Fin 0, NaN) (Fin 1)).
  reflexivity.
Defined.

(** C4, as stated, fails for a ball on the floor that moves downward: the
    impact is applied within the zero-length step and the velocity comes
    back reflected. *)
Lemma zero_step_reflects :
  simulateSingleBall (Fin 0, Fin 0, Fin 0, Fin (-1000)) (Fin 0)
  = (Fin 0, Fin 0, Fin 0, Fin 500)
  /\ simulateSingleBall (Fin 0, Fin 0, Fin 0, Fin (-1000)) (Fin 0)
     <> (Fin 0, Fin 0, Fin 0, Fin (-1000)).
Proof.
  assert (E : simulateSingleBall (Fin 0, Fin 0, Fin 0, Fin (-1000)) (Fin 0)
              = (Fin 0, Fin 0, Fin 0, Fin 500)).
  { assert (Ht : impactTime 0 (-1000) = 0).
    { rewrite (impactTime_value 0 (-1000) 1000); lra. }
    rewrite simulateSingleBall_impact by lra.
    rewrite Ht.
    replace (- (1 / 2) * (-1000 - 1000 * 0)) with 500 by lra.
    replace (0 - 0) with 0 by lra.
    rewrite (simulateAfterImpact_skip _ _ _ _ _ 0%nat) by (simpl; lra).
    rewrite simulateWithoutImpacts_Fin. simpl. fin_eq. }
  split; [exact E |]. rewrite E. intros H. injection H as H. lra.
Qed.

(** A ball at rest on the floor, advanced by zero seconds: the stillness test
    [timeToStillness(0) < 0] fails, the bounce count is [log(1 - 0/0)], and
    the ball comes back as [NaN]. *)
Lemma zero_step_at_rest (x x_ : R) :
  simulateSingleBall (Fin x, Fin 0, Fin x_, Fin 0) (Fin 0)
  = (NaN, NaN, Fin x_, NaN).
Proof.
  assert (Ht : impactTime 0 0 = 0).
  { rewrite (impactTime_value 0 0 0); lra. }
  rewrite simulateSingleBall_impact by lra.
  rewrite Ht.
  replace (- (1 / 2) * (0 - 1000 * 0)) with 0 by lra.
  replace (0 - 0) with 0 by lra.
  unfold simulateAfterImpact.
  rewrite timeToStillness_Fin, ltb_Fin_false by lra.
  unfold numberOfBouncesInPeriod. rewrite flightTimeThisBounce_Fin.
  unfold COEFFICIENT_OF_RESTITUTION. autorewrite with js.
  replace ((1 - 1 / 2) * 0) with 0 by lra.
  replace (0 / 500) with 0 by lra.
  rewrite div_zero_zero. autorewrite with jsnan.
  cbn [Math_log Math_floor]. autorewrite with jsnan.
  unfold timeForNBounces. cbn [strict_eq]. autorewrite with jsnan.
  apply simulateWithoutImpacts_NaN.
Qed.

(* ================================================================= *)
(** ** Further properties of simulation.ts *)

Section FreeFlight.



Lemma simulateSingleBall_resting (x x_ dt : R) :
  0 < dt ->
  simulateSingleBall (Fin x, Fin 0, Fin x_, Fin 0) (Fin dt)
  = (Fin (x + x_ * dt), Fin 0, Fin x_, Fin 0).
Proof.
  intros Hdt.
  assert (Ht : impactTime 0 0 = 0).
  { rewrite (impactTime_value 0 0 0); lra. }
  rewrite simulateSingleBall_impact by lra.
  rewrite Ht, simulateAfterImpact_still by lra.
  fin_eq.
Qed.

End FreeFlight.














Lemma ln_le_compat (a b : R) : 0 < a -> a <= b -> ln a <= ln b.
Proof.
  intros Ha [Hlt | ->]; [left; now apply ln_increasing | right; reflexivity].
Qed.

(** X8.  For a rebound velocity [v > 0], [numberOfBouncesInPeriod] does not
    decrease when the period grows, as long as the period stays below
    [timeToStillness(v)]. *)
Theorem numberOfBouncesInPeriod_monotone (v p1 p2 : R) :
  0 < v -> p1 <= p2 ->
  (Fin p2 <? timeToStillness (Fin v))%js = true ->
  (numberOfBouncesInPeriod (Fin v) (Fin p1)
   <=? numberOfBouncesInPeriod (Fin v) (Fin p2))%js = true.
Proof.
  intros Hv Hle Hstill. pose proof ln_half_neg as HL.
  rewrite timeToStillness_Fin in Hstill. apply ltb_Fin_inv in Hstill.
  rewrite !numberOfBouncesInPeriod_Fin by lra.
  apply leb_Fin_iff. apply IZR_le. apply Zfloor_le.
  assert (Hfrac : forall p, 250 * p / v * v = 250 * p) by (intros; field; lra).
  assert (Hx2 : 0 < 1 - 250 * p2 / v).
  { apply Rlt_0_minus. apply Rmult_lt_reg_r with v; [assumption |].
    rewrite Hfrac. lra. }
  assert (Hx : 1 - 250 * p2 / v <= 1 - 250 * p1 / v).
  { apply Rplus_le_compat_l, Ropp_le_contravar.
    apply Rmult_le_reg_r with v; [assumption |]. rewrite !Hfrac. lra. }
  pose proof (ln_le_compat _ _ Hx2 Hx) as Hln.
  set (a := ln (1 - 250 * p1 / v)) in *.
  set (b := ln (1 - 250 * p2 / v)) in *.
  set (L := ln (1 / 2)) in *.
  assert (Ha : a = a / L * L) by (field; lra).
  assert (Hb : b = b / L * L) by (field; lra).
  nra.
Qed.

Lemma numberOfBouncesInPeriod_monotone_witness :
  (numberOfBouncesInPeriod (Fin 1000) (Fin 1)
   <=? numberOfBouncesInPeriod (Fin 1000) (Fin 2))%js = true.
Proof.
  apply numberOfBouncesInPeriod_monotone.
  - lra.
  - lra.
  - rewrite timeToStillness_Fin. apply ltb_Fin_true. lra.
Defined.

(** X10.  [simulateManyBalls] returns as many balls as it is given, in the
    same order, each with the horizontal velocity it came with. *)
Theorem simulateManyBalls_keeps_balls (balls : list Ball) (seconds : number) :
  List.length (simulateManyBalls balls seconds) = List.length balls
  /\ List.map ball_x_ (simulateManyBalls balls seconds) = List.map ball_x_ balls.
Proof.
  unfold simulateManyBalls. split.
  - apply length_map.
  - rewrite map_map. apply map_ext. intros b. apply simulateSingleBall_x_.
Qed.

(** X11.  Rest is kept: a ball lying still on the floor, advanced by
    [s > 0] seconds, lies still on the floor at [x + vx s]. *)
Theorem rest_is_kept (x x_ s : R) :
  0 < s ->
  simulateSingleBall (Fin x, Fin 0, Fin x_, Fin 0) (Fin s)
  = (Fin (x + x_ * s), Fin 0, Fin x_, Fin 0).
Proof. apply simulateSingleBall_resting. Qed.

Lemma rest_is_kept_witness :
  simulateSingleBall (Fin 1000, Fin 0, Fin 1, Fin 0) (Fin 1)
  = (Fin (1000 + 1 * 1), Fin 0, Fin 1, Fin 0).
Proof. apply rest_is_kept; lra. Defined.

(* ================================================================= *)
(** ** Properties of index.ts *)

Section RandomVelocity.

Lemma unitSamples_shift (rand : Index.Random) :
  unitSamples rand -> unitSamples (fun n => rand (S n)).
Proof. intros H n. apply H. Qed.

Lemma gaussianLoop_bounds (k : nat) :
  forall (acc : R) (rand : Index.Random),
    unitSamples rand ->
    exists g : R,
      fst (Index.gaussianLoop k (Fin acc) rand) = Fin g
      /\ acc - INR k / 2 <= g <= acc + INR k / 2
      /\ (k <> O -> g < acc + INR k / 2).
Proof.
  induction k as [|k IH]; intros acc rand Hrand.
  - exists acc. simpl. repeat split; try lra. intros H. now elim H.
  - destruct (Hrand O) as (u & Hu & Hu01).
    destruct (IH (acc + (u - 1 / 2)) _ (unitSamples_shift _ Hrand))
      as (g & Hg & Hbounds & _).
    exists g. cbn [Index.gaussianLoop Index.Math_random].
    rewrite Hu. autorewrite with js. rewrite Hg.
    rewrite S_INR. repeat split; try lra.
Qed.

Lemma gaussianLoop_rest (k : nat) :
  forall (acc : number) (rand : Index.Random) (n : nat),
    snd (Index.gaussianLoop k acc rand) n = rand (k + n)%nat.
Proof.
  induction k as [|k IH]; intros acc rand n.
  - reflexivity.
  - cbn [Index.gaussianLoop Index.Math_random]. rewrite IH. reflexivity.
Qed.

Lemma gaussianApproximation_spec (rand : Index.Random) :
  unitSamples rand ->
  exists g : R,
    fst (Index.gaussianApproximation rand) = Fin g
    /\ -3 <= g < 3
    /\ unitSamples (snd (Index.gaussianApproximation rand))
    /\ forall n : nat,
        snd (Index.gaussianApproximation rand) n = rand (6 + n)%nat.
Proof.
  intros Hrand. unfold Index.gaussianApproximation.
  destruct (gaussianLoop_bounds 6 0 rand Hrand) as (g & Hg & Hb & Hstrict).
  exists g. split; [exact Hg |].
  assert (H6 : INR 6 = 6) by (simpl; lra). rewrite H6 in Hb, Hstrict.
  split; [split; [lra | specialize (Hstrict ltac:(discriminate)); lra] |].
  split.
  - intros n. rewrite gaussianLoop_rest. apply Hrand.
  - intros n. apply gaussianLoop_rest.
Qed.

Lemma addBall_spec (balls : list Ball) (x y : number) (rand : Index.Random) :
  unitSamples rand ->
  exists vx vy : R,
    fst (Index.addBall balls x y rand) = balls ++ [(x, y, Fin vx, Fin vy)]
    /\ -750 <= vx < 750 /\ -750 <= vy < 750
    /\ forall n : nat, snd (Index.addBall balls x y rand) n = rand (12 + n)%nat.
Proof.
  intros Hrand. unfold Index.addBall.
  destruct (gaussianApproximation_spec rand Hrand) as (gx & Hgx & Hbx & Hrand1 & Hrest1).
  destruct (Index.gaussianApproximation rand) as [g1 rand1]. simpl in Hgx, Hrand1, Hrest1.
  destruct (gaussianApproximation_spec rand1 Hrand1) as (gy & Hgy & Hby & _ & Hrest2).
  destruct (Index.gaussianApproximation rand1) as [g2 rand2]. simpl in Hgy, Hrest2.
  subst g1 g2. exists (250 * gx), (250 * gy). simpl.
  unfold Index.SCATTER. autorewrite with js.
  split; [reflexivity |]. split; [lra |]. split; [lra |].
  intros n. rewrite Hrest2, Hrest1. f_equal.
Qed.

End RandomVelocity.

(** X12.  When every sample of [Math.random()] is in [0, 1),
    [gaussianApproximation] returns a finite number [g] with [-3 <= g < 3],
    and it draws exactly six samples. *)
Theorem gaussianApproximation_bounded (rand : Index.Random) :
  unitSamples rand ->
  exists g : R,
    fst (Index.gaussianApproximation rand) = Fin g
    /\ -3 <= g < 3
    /\ forall n : nat,
        snd (Index.gaussianApproximation rand) n = rand (6 + n)%nat.
Proof.
  intros Hrand.
  destruct (gaussianApproximation_spec rand Hrand) as (g & Hg & Hb & _ & Hrest).
  exists g. auto.
Qed.

Lemma gaussianApproximation_bounded_witness :
  exists g : R,
    fst (Index.gaussianApproximation (fun _ => Fin (1 / 2))) = Fin g
    /\ -3 <= g < 3
    /\ forall n : nat,
        snd (Index.gaussianApproximation (fun _ => Fin (1 / 2))) n
        = (fun _ : nat => Fin (1 / 2)) (6 + n)%nat.
Proof.
  apply gaussianApproximation_bounded.
  intros n. exists (1 / 2). split; [reflexivity | lra].
Defined.

(** X13.  When [Math.random()] keeps returning the same number [c], one of
    the values 0, 0.5 and 1 of the test suite, [gaussianApproximation]
    returns [6 c - 3]: -3, 0 and 3. *)
Theorem gaussianApproximation_constant (rand : Index.Random) (c : R) :
  c = 0 \/ c = 1 / 2 \/ c = 1 ->
  (forall n : nat, rand n = Fin c) ->
  fst (Index.gaussianApproximation rand) = Fin (6 * c - 3).
Proof.
  intros _ Hc. unfold Index.gaussianApproximation.
  cbn [Index.gaussianLoop Index.Math_random fst].
  rewrite !Hc. autorewrite with js. fin_eq.
Qed.

Lemma gaussianApproximation_constant_witness :
  fst (Index.gaussianApproximation (fun _ => Fin 1)) = Fin (6 * 1 - 3).
Proof.
  apply gaussianApproximation_constant; [right; right; reflexivity | reflexivity].
Defined.

(** X14.  With samples in [0, 1), [addBall] puts one ball at the end of the
    collection, at the position it is given, with finite velocity components
    in [-750, 750) (three times [SCATTER]); the balls already there stay as
    they are, and twelve samples are drawn. *)
Theorem addBall_appends_one_ball (balls : list Ball) (x y : number)
    (rand : Index.Random) :
  unitSamples rand ->
  exists vx vy : R,
    fst (Index.addBall balls x y rand) = balls ++ [(x, y, Fin vx, Fin vy)]
    /\ -750 <= vx < 750 /\ -750 <= vy < 750
    /\ forall n : nat, snd (Index.addBall balls x y rand) n = rand (12 + n)%nat.
Proof. apply addBall_spec. Qed.

Lemma addBall_appends_one_ball_witness :
  exists vx vy : R,
    fst (Index.addBall [] (Fin 10) (Fin 20) (fun _ => Fin 0))
    = [] ++ [(Fin 10, Fin 20, Fin vx, Fin vy)]
    /\ -750 <= vx < 750 /\ -750 <= vy < 750
    /\ forall n : nat,
        snd (Index.addBall [] (Fin 10) (Fin 20) (fun _ => Fin 0)) n
        = (fun _ : nat => Fin 0) (12 + n)%nat.
Proof.
  apply addBall_appends_one_ball.
  intros n. exists 0. split; [reflexivity | lra].
Defined.

Section View.

Lemma in_view_test (w : R) (x y x_ y_ : number) :
  ((x >? Fin 0)%js && (x <? Fin w)%js = true) <-> inView w (x, y, x_, y_).
Proof.
  unfold inView, ball_x, gtb. split.
  - intros H. apply andb_true_iff in H. destruct H as [H0 Hw].
    destruct x as [r | | |]; try discriminate.
    exists r. split; [reflexivity |].
    split; [now apply ltb_Fin_inv | now apply ltb_Fin_inv].
  - intros (r & -> & H0 & Hw).
    now rewrite !ltb_Fin_true.
Qed.

Lemma garbageCollect_In (c : Index.HTMLCanvasElement) (w : R)
    (balls : list Ball) (ball : Ball) :
  Index.width c = Fin w ->
  In ball (Index.garbageCollect c balls) <-> In ball balls /\ inView w ball.
Proof.
  intros Hw. unfold Index.garbageCollect. rewrite filter_In, Hw.
  destruct ball as [[[x y] x_] y_]. now rewrite in_view_test.
Qed.

Lemma garbageCollect_NaN (c : Index.HTMLCanvasElement) (balls : list Ball) :
  Forall (fun ball => ball_x ball = NaN) balls ->
  Index.garbageCollect c balls = [].
Proof.
  intros Hall. unfold Index.garbageCollect.
  induction Hall as [| [[[x y] x_] y_] rest Hb _ IH]; [reflexivity |].
  cbn [filter]. cbn [ball_x] in Hb. rewrite Hb, IH. reflexivity.
Qed.

Lemma filter_twice {A : Type} (f : A -> bool) (l : list A) :
  filter f (filter f l) = filter f l.
Proof.
  induction l as [| a l IH]; [reflexivity |].
  simpl. destruct (f a) eqn:E; simpl; [rewrite E, IH |]; auto.
Qed.

End View.

(** X15.  [garbageCollect] keeps exactly the balls whose [x] is a finite
    number strictly between 0 and the width of the canvas; a ball whose [x]
    is [NaN] or infinite is dropped. *)
Theorem garbageCollect_keeps_view (c : Index.HTMLCanvasElement) (w : R)
    (balls : list Ball) (ball : Ball) :
  Index.width c = Fin w ->
  In ball (Index.garbageCollect c balls) <-> In ball balls /\ inView w ball.
Proof. apply garbageCollect_In. Qed.

Lemma garbageCollect_keeps_view_witness :
  In (Fin 100, Fin 0, Fin 0, Fin 0)
     (Index.garbageCollect
        {| Index.width := Fin 1000; Index.height := Fin 0;
           Index.clientWidth := Fin 0; Index.clientHeight := Fin 0 |}
        [(Fin (-100), Fin 0, Fin 0, Fin 0);
         (Fin 100, Fin 0, Fin 0, Fin 0);
         (Fin 2000, Fin 0, Fin 0, Fin 0)])
  <-> In (Fin 100, Fin 0, Fin 0, Fin 0)
        [(Fin (-100), Fin 0, Fin 0, Fin 0);
         (Fin 100, Fin 0, Fin 0, Fin 0);
         (Fin 2000, Fin 0, Fin 0, Fin 0)]
      /\ inView 1000 (Fin 100, Fin 0, Fin 0, Fin 0).
Proof. apply garbageCollect_keeps_view. reflexivity. Defined.

(** X16.  [garbageCollect] is idempotent: collecting a second time with the
    same canvas removes nothing more. *)
Theorem garbageCollect_idempotent (c : Index.HTMLCanvasElement)
    (balls : list Ball) :
  Index.garbageCollect c (Index.garbageCollect c balls)
  = Index.garbageCollect c balls.
Proof. apply filter_twice. Qed.

(** X17.  [drawBalls] clears the whole canvas first and then draws the balls
    in order, four calls each: the arcs are centred at [(x, height - y)],
    the ball's position with the vertical axis flipped. *)
Theorem drawBalls_flips_vertical_axis (c : Index.HTMLCanvasElement)
    (balls : list Ball) :
  List.hd Index.Fill (Index.drawBalls c balls)
  = Index.ClearRect (Fin 0) (Fin 0) (Index.width c) (Index.height c)
  /\ List.length (Index.drawBalls c balls) = (1 + 4 * List.length balls)%nat
  /\ arcCentres (Index.drawBalls c balls)
     = List.map (fun ball => (ball_x ball, (Index.height c - ball_y ball)%js))
         balls.
Proof.
  unfold Index.drawBalls. split; [reflexivity |]. split.
  - simpl. f_equal.
    induction balls as [| [[[x y] x_] y_] rest IH]; [reflexivity |].
    simpl. rewrite IH. lia.
  - unfold arcCentres. simpl.
    induction balls as [| [[[x y] x_] y_] rest IH]; [reflexivity |].
    simpl in *. rewrite IH. reflexivity.
Qed.

Section AnimationLoop.

Lemma simulateManyBalls_zero_at_rest (balls : list Ball) :
  Forall atRest balls ->
  Forall (fun ball => ball_x ball = NaN) (simulateManyBalls balls (Fin 0)).
Proof.
  intros Hall. unfold simulateManyBalls.
  induction Hall as [| b rest Hb _ IH]; [constructor |].
  destruct Hb as (x & x_ & ->).
  cbn [List.map]. constructor; [| exact IH].
  now rewrite zero_step_at_rest.
Qed.

Lemma falsy_nonzero (t : R) : t <> 0 -> Index.falsy (Some (Fin t)) = false.
Proof.
  intros Ht. unfold Index.falsy. now rewrite strict_eq_Fin_false.
Qed.

Lemma zero_duration (t : R) : ((Fin t - Fin t) / Fin 1000)%js = Fin 0.
Proof. autorewrite with js. fin_eq. Qed.

Lemma length_zero_iff_nil {A : Type} (l : list A) :
  Nat.eqb (List.length l) 0 = true <-> l = [].
Proof. destruct l; simpl; split; intros H; congruence. Qed.

End AnimationLoop.

(** X18.  After [doSimulation], every ball of the collection is in view (a
    finite [x] strictly between 0 and the width of the canvas), and the loop
    has stopped (no pending callback, no last timestamp) exactly when the
    collection is empty. *)
Theorem doSimulation_keeps_view (now frameId : number)
    (ui : Index.UserInterface) (w : R) :
  Index.width (Index.canvas ui) = Fin w ->
  Forall (inView w) (Index.balls (fst (Index.doSimulation now frameId ui)))
  /\ (Index.callbackId (fst (Index.doSimulation now frameId ui)) = None
      <-> Index.balls (fst (Index.doSimulation now frameId ui)) = [])
  /\ (Index.lastTimestamp (fst (Index.doSimulation now frameId ui)) = None
      <-> Index.balls (fst (Index.doSimulation now frameId ui)) = []).
Proof.
  intros Hw. unfold Index.doSimulation.
  set (moved := simulateManyBalls _ _).
  assert (Hview : Forall (inView w) (Index.garbageCollect (Index.canvas ui) moved)).
  { apply Forall_forall. intros b Hb.
    apply (garbageCollect_In _ w) in Hb; [tauto | assumption]. }
  destruct (Nat.eqb (List.length (Index.garbageCollect (Index.canvas ui) moved)) 0)
    eqn:Hlen; cbn [fst Index.balls Index.callbackId Index.lastTimestamp].
  - apply length_zero_iff_nil in Hlen. rewrite Hlen. repeat split; auto.
  - split; [exact Hview |].
    split; (split; intros H; [discriminate |]);
      apply length_zero_iff_nil in H; congruence.
Qed.

Lemma doSimulation_keeps_view_witness :
  Forall (inView 1000)
    (Index.balls (fst (Index.doSimulation (Fin 5) (Fin 1)
       {| Index.balls := [];
          Index.canvas := {| Index.width := Fin 1000; Index.height := Fin 500;
                             Index.clientWidth := Fin 1000;
                             Index.clientHeight := Fin 500 |};
          Index.callbackId := None; Index.lastTimestamp := None |})))
  /\ (Index.callbackId (fst (Index.doSimulation (Fin 5) (Fin 1)
       {| Index.balls := [];
          Index.canvas := {| Index.width := Fin 1000; Index.height := Fin 500;
                             Index.clientWidth := Fin 1000;
                             Index.clientHeight := Fin 500 |};
          Index.callbackId := None; Index.lastTimestamp := None |})) = None
      <-> Index.balls (fst (Index.doSimulation (Fin 5) (Fin 1)
       {| Index.balls := [];
          Index.canvas := {| Index.width := Fin 1000; Index.height := Fin 500;
                             Index.clientWidth := Fin 1000;
                             Index.clientHeight := Fin 500 |};
          Index.callbackId := None; Index.lastTimestamp := None |})) = [])
  /\ (Index.lastTimestamp (fst (Index.doSimulation (Fin 5) (Fin 1)
       {| Index.balls := [];
          Index.canvas := {| Index.width := Fin 1000; Index.height := Fin 500;
                             Index.clientWidth := Fin 1000;
                             Index.clientHeight := Fin 500 |};
          Index.callbackId := None; Index.lastTimestamp := None |})) = None
      <-> Index.balls (fst (Index.doSimulation (Fin 5) (Fin 1)
       {| Index.balls := [];
          Index.canvas := {| Index.width := Fin 1000; Index.height := Fin 500;
                             Index.clientWidth := Fin 1000;
                             Index.clientHeight := Fin 500 |};
          Index.callbackId := None; Index.lastTimestamp := None |})) = []).
Proof. apply doSimulation_keeps_view. reflexivity. Defined.

(** X19.  The first frame after a (re)start simulates zero seconds: when
    there is no last timestamp (or it is 0) and the clock is finite,
    [doSimulation] leaves in the collection what [garbageCollect] keeps of
    the balls advanced by 0 seconds. *)
Theorem first_frame_simulates_zero_seconds (now : R) (frameId : number)
    (ui : Index.UserInterface) :
  Index.falsy (Index.lastTimestamp ui) = true ->
  Index.balls (fst (Index.doSimulation (Fin now) frameId ui))
  = Index.garbageCollect (Index.canvas ui)
      (simulateManyBalls (Index.balls ui) (Fin 0)).
Proof.
  intros Hfirst. unfold Index.doSimulation.
  rewrite Hfirst, zero_duration.
  destruct (Nat.eqb _ 0); reflexivity.
Qed.

Lemma first_frame_simulates_zero_seconds_witness :
  Index.balls (fst (Index.doSimulation (Fin 5) (Fin 1)
    {| Index.balls := [(Fin 10, Fin 20, Fin 0, Fin 0)];
       Index.canvas := {| Index.width := Fin 1000; Index.height := Fin 500;
                          Index.clientWidth := Fin 1000;
                          Index.clientHeight := Fin 500 |};
       Index.callbackId := Some (Fin 1); Index.lastTimestamp := None |}))
  = Index.garbageCollect
      (Index.canvas
         {| Index.balls := [(Fin 10, Fin 20, Fin 0, Fin 0)];
            Index.canvas := {| Index.width := Fin 1000; Index.height := Fin 500;
                               Index.clientWidth := Fin 1000;
                               Index.clientHeight := Fin 500 |};
            Index.callbackId := Some (Fin 1); Index.lastTimestamp := None |})
      (simulateManyBalls
         (Index.balls
            {| Index.balls := [(Fin 10, Fin 20, Fin 0, Fin 0)];
               Index.canvas := {| Index.width := Fin 1000; Index.height := Fin 500;
                                  Index.clientWidth := Fin 1000;
                                  Index.clientHeight := Fin 500 |};
               Index.callbackId := Some (Fin 1); Index.lastTimestamp := None |})
         (Fin 0)).
Proof.
  apply (first_frame_simulates_zero_seconds 5 (Fin 1)). reflexivity.
Defined.

(** X20.  A frame that carries the timestamp of the frame before it
    simulates zero seconds, and zero seconds turn a ball at rest into
    [NaN]: when every ball of the collection lies still on the floor,
    [doSimulation] empties the collection and stops the loop. *)
Theorem repeated_timestamp_drops_resting_balls (t : R) (frameId : number)
    (ui : Index.UserInterface) :
  t <> 0 ->
  Index.lastTimestamp ui = Some (Fin t) ->
  Forall atRest (Index.balls ui) ->
  fst (Index.doSimulation (Fin t) frameId ui)
  = {| Index.balls := []; Index.canvas := Index.canvas ui;
       Index.callbackId := None; Index.lastTimestamp := None |}.
Proof.
  intros Ht Hlast Hrest. unfold Index.doSimulation.
  rewrite Hlast, (falsy_nonzero t Ht), zero_duration.
  rewrite garbageCollect_NaN by now apply simulateManyBalls_zero_at_rest.
  reflexivity.
Qed.

Lemma repeated_timestamp_drops_resting_balls_witness :
  fst (Index.doSimulation (Fin 5) (Fin 2)
    {| Index.balls := [(Fin 10, Fin 0, Fin 1, Fin 0)];
       Index.canvas := {| Index.width := Fin 1000; Index.height := Fin 500;
                          Index.clientWidth := Fin 1000;
                          Index.clientHeight := Fin 500 |};
       Index.callbackId := Some (Fin 1); Index.lastTimestamp := Some (Fin 5) |})
  = {| Index.balls := [];
       Index.canvas := {| Index.width := Fin 1000; Index.height := Fin 500;
                          Index.clientWidth := Fin 1000;
                          Index.clientHeight := Fin 500 |};
       Index.callbackId := None; Index.lastTimestamp := None |}.
Proof.
  apply (repeated_timestamp_drops_resting_balls 5 (Fin 2)).
  - lra.
  - reflexivity.
  - constructor; [| constructor]. exists 10, 1. reflexivity.
Defined.

(** X21.  [startSimulationIfNeeded] requests a frame only when none is
    pending: with frame identifiers that are not 0 or [NaN], a second call
    changes nothing and requests nothing. *)
Theorem startSimulationIfNeeded_idempotent (frameId frameId' : number)
    (ui : Index.UserInterface) :
  Index.falsy (Some frameId) = false ->
  Index.falsy (Index.callbackId
                 (fst (Index.startSimulationIfNeeded frameId ui))) = false
  /\ Index.startSimulationIfNeeded frameId'
       (fst (Index.startSimulationIfNeeded frameId ui))
     = (fst (Index.startSimulationIfNeeded frameId ui), []).
Proof.
  intros Hid.
  assert (Hpending : Index.falsy (Index.callbackId
             (fst (Index.startSimulationIfNeeded frameId ui))) = false).
  { unfold Index.startSimulationIfNeeded.
    destruct (Index.falsy (Index.callbackId ui)) eqn:E; simpl; assumption. }
  split; [exact Hpending |].
  unfold Index.startSimulationIfNeeded at 1. now rewrite Hpending.
Qed.

Lemma startSimulationIfNeeded_idempotent_witness :
  Index.falsy (Index.callbackId
     (fst (Index.startSimulationIfNeeded (Fin 1)
        {| Index.balls := [];
           Index.canvas := {| Index.width := Fin 1000; Index.height := Fin 500;
                              Index.clientWidth := Fin 1000;
                              Index.clientHeight := Fin 500 |};
           Index.callbackId := None; Index.lastTimestamp := None |}))) = false
  /\ Index.startSimulationIfNeeded (Fin 2)
       (fst (Index.startSimulationIfNeeded (Fin 1)
          {| Index.balls := [];
             Index.canvas := {| Index.width := Fin 1000; Index.height := Fin 500;
                                Index.clientWidth := Fin 1000;
                                Index.clientHeight := Fin 500 |};
             Index.callbackId := None; Index.lastTimestamp := None |}))
     = (fst (Index.startSimulationIfNeeded (Fin 1)
          {| Index.balls := [];
             Index.canvas := {| Index.width := Fin 1000; Index.height := Fin 500;
                                Index.clientWidth := Fin 1000;
                                Index.clientHeight := Fin 500 |};
             Index.callbackId := None; Index.lastTimestamp := None |}), []).
Proof.
  apply startSimulationIfNeeded_idempotent.
  unfold Index.falsy. rewrite strict_eq_Fin_false by lra. reflexivity.
Defined.

(** X22.  A click adds one ball at the click position, converted to canvas
    coordinates with the vertical axis flipped
    ([clientX - rect.left], [rect.bottom - clientY]), with a velocity in
    [-750, 750) on each axis; afterwards a callback is pending, and a frame
    is requested only if none was pending before. *)
Theorem handleClick_adds_ball (event : Index.MouseEvent) (rect : Index.DOMRect)
    (rand : Index.Random) (frameId : number) (ui : Index.UserInterface) :
  unitSamples rand ->
  Index.falsy (Some frameId) = false ->
  exists vx vy : R,
    Index.balls (fst (fst (Index.handleClick event rect rand frameId ui)))
    = Index.balls ui
      ++ [((Index.clientX event - Index.left rect)%js,
           (Index.bottom rect - Index.clientY event)%js,
           Fin vx, Fin vy)]
    /\ -750 <= vx < 750 /\ -750 <= vy < 750
    /\ Index.falsy
         (Index.callbackId
            (fst (fst (Index.handleClick event rect rand frameId ui)))) = false
    /\ snd (Index.handleClick event rect rand frameId ui)
       = (if Index.falsy (Index.callbackId ui)
          then [Index.RequestAnimationFrame] else []).
Proof.
  intros Hrand Hid. unfold Index.handleClick.
  destruct (addBall_spec (Index.balls ui)
              (Index.clientX event - Index.left rect)%js
              (Index.bottom rect - Index.clientY event)%js rand Hrand)
    as (vx & vy & Hballs & Hvx & Hvy & _).
  destruct (Index.addBall _ _ _ rand) as [balls' rand']. simpl in Hballs.
  exists vx, vy. unfold Index.startSimulationIfNeeded.
  cbn [Index.callbackId Index.balls Index.canvas Index.lastTimestamp].
  destruct (Index.falsy (Index.callbackId ui)) eqn:E;
    cbn [fst snd Index.callbackId Index.balls]; auto.
Qed.

Lemma handleClick_adds_ball_witness :
  exists vx vy : R,
    Index.balls (fst (fst (Index.handleClick
       {| Index.clientX := Fin 110; Index.clientY := Fin 80 |}
       {| Index.left := Fin 100; Index.bottom := Fin 100 |}
       (fun _ => Fin 0) (Fin 1)
       {| Index.balls := [];
          Index.canvas := {| Index.width := Fin 1000; Index.height := Fin 500;
                             Index.clientWidth := Fin 1000;
                             Index.clientHeight := Fin 500 |};
          Index.callbackId := None; Index.lastTimestamp := None |})))
    = Index.balls
        {| Index.balls := [];
           Index.canvas := {| Index.width := Fin 1000; Index.height := Fin 500;
                              Index.clientWidth := Fin 1000;
                              Index.clientHeight := Fin 500 |};
           Index.callbackId := None; Index.lastTimestamp := None |}
      ++ [((Index.clientX {| Index.clientX := Fin 110; Index.clientY := Fin 80 |}
            - Index.left {| Index.left := Fin 100; Index.bottom := Fin 100 |})%js,
           (Index.bottom {| Index.left := Fin 100; Index.bottom := Fin 100 |}
            - Index.clientY {| Index.clientX := Fin 110; Index.clientY := Fin 80 |})%js,
           Fin vx, Fin vy)]
    /\ -750 <= vx < 750 /\ -750 <= vy < 750
    /\ Index.falsy
         (Index.callbackId
            (fst (fst (Index.handleClick
               {| Index.clientX := Fin 110; Index.clientY := Fin 80 |}
               {| Index.left := Fin 100; Index.bottom := Fin 100 |}
               (fun _ => Fin 0) (Fin 1)
               {| Index.balls := [];
                  Index.canvas := {| Index.width := Fin 1000; Index.height := Fin 500;
                                     Index.clientWidth := Fin 1000;
                                     Index.clientHeight := Fin 500 |};
                  Index.callbackId := None; Index.lastTimestamp := None |}))))
       = false
    /\ snd (Index.handleClick
               {| Index.clientX := Fin 110; Index.clientY := Fin 80 |}
               {| Index.left := Fin 100; Index.bottom := Fin 100 |}
               (fun _ => Fin 0) (Fin 1)
               {| Index.balls := [];
                  Index.canvas := {| Index.width := Fin 1000; Index.height := Fin 500;
                                     Index.clientWidth := Fin 1000;
                                     Index.clientHeight := Fin 500 |};
                  Index.callbackId := None; Index.lastTimestamp := None |})
       = (if Index.falsy (Index.callbackId
               {| Index.balls := [];
                  Index.canvas := {| Index.width := Fin 1000; Index.height := Fin 500;
                                     Index.clientWidth := Fin 1000;
                                     Index.clientHeight := Fin 500 |};
                  Index.callbackId := None; Index.lastTimestamp := None |})
          then [Index.RequestAnimationFrame] else []).
Proof.
  apply handleClick_adds_ball.
  - intros n. exists 0. split; [reflexivity | lra].
  - unfold Index.falsy. rewrite strict_eq_Fin_false by lra. reflexivity.
Defined.

(* ================================================================= *)
(** ** simulation.ts on binary64: what rounding changes *)

Section Binary64.

Import QArith_base.
Import Stdlib.QArith.Qfield.
Import Lqa.
Local Open Scope Q_scope.

(** *** Zeros and NaN *)

Lemma b64_strict_eq_refl (x : B64.float) :
  B64.is_finite x = true -> B64.strict_eq x x = true.
Proof.
  destruct x as [s | s | | s m e]; try discriminate; intros _.
  - reflexivity.
  - unfold B64.strict_eq, SpecFloat.SFeqb, SpecFloat.SFcompare.
    rewrite Z.compare_refl, Pos.compare_cont_refl. now destruct s.
Qed.

Lemma b64_add_zero (a : B64.float) (s : bool) :
  B64.is_finite a = true ->
  B64.strict_eq (B64.add a (SpecFloat.S754_zero s)) a = true.
Proof.
  destruct a as [sa | sa | | sa m e]; try discriminate; intros H.
  - now destruct sa, s.
  - replace (B64.add (SpecFloat.S754_finite sa m e) (SpecFloat.S754_zero s))
      with (SpecFloat.S754_finite sa m e) by reflexivity.
    now apply b64_strict_eq_refl.
Qed.

Lemma b64_mul_zero (a : B64.float) (s : bool) :
  B64.is_finite a = true ->
  exists s', B64.mul a (SpecFloat.S754_zero s) = SpecFloat.S754_zero s'.
Proof.
  destruct a as [sa | sa | | sa m e]; try discriminate; intros _; eexists; reflexivity.
Qed.

Lemma b64_strict_eq_trans_zero (a b : B64.float) (s : bool) :
  B64.is_finite b = true ->
  B64.strict_eq a b = true ->
  B64.strict_eq (B64.add a (SpecFloat.S754_zero s)) b = true.
Proof.
  intros Hb Hab.
  destruct a as [sa | sa | | sa m e]; try discriminate Hab.
  - destruct b as [sb | sb | | sb mb eb]; try discriminate; now destruct sa, s.
  - destruct b as [sb | sb | | sb mb eb]; try discriminate; now destruct sa.
  - exact Hab.
Qed.

Lemma b64_add_NaN_r (a : B64.float) : B64.add a B64.NaN = B64.NaN.
Proof. now destruct a. Qed.

Lemma b64_sub_NaN_r (a : B64.float) : B64.sub a B64.NaN = B64.NaN.
Proof. now destruct a. Qed.

Lemma b64_mul_NaN_r (a : B64.float) : B64.mul a B64.NaN = B64.NaN.
Proof. now destruct a. Qed.

Lemma b64_ltb_NaN_r (a : B64.float) : B64.ltb a B64.NaN = false.
Proof. now destruct a. Qed.

Lemma b64_sqrt_negative (d : B64.float) :
  B64.ltb d (B64.dyadic 0 0) = true -> B64.Math_sqrt d = B64.NaN.
Proof.
  destruct d as [s | s | | s m e]; try discriminate; destruct s; try discriminate;
    reflexivity.
Qed.

(** *** Operations that do not round *)


Lemma exact_neg (a : B64.float) : B64.exact (B64.neg a) == - B64.exact a.
Proof.
  destruct a as [s | s | | s m e]; try reflexivity.
  unfold B64.neg, SpecFloat.SFopp, B64.exact.
  destruct s; cbn [negb SpecFloat.cond_Zopp];
    change (inject_Z (- Z.pos m)) with (- inject_Z (Z.pos m));
    generalize (inject_Z (Z.pos m)) (inject_Z 2 ^ e); intros a b; ring.
Qed.





(** *** Half of a normal double, and its quotient by the double *)




(** *** The step of zero seconds *)

(** C4, amended.  On binary64, advancing by zero seconds returns the ball
    unchanged (each component [===] to the one given) whenever the ball has
    finite components and the time to impact the code computes for it is
    greater than 0. *)
Theorem zero_step_unchanged (x y x_ y_ : B64.float) :
  B64.is_finite x = true -> B64.is_finite y = true ->
  B64.is_finite x_ = true -> B64.is_finite y_ = true ->
  B64.gtb (B64.timeToImpact (x, y, x_, y_)) (B64.dyadic 0 0) = true ->
  B64.strict_eq
    (B64.ball_x (B64.simulateSingleBall (x, y, x_, y_) (B64.dyadic 0 0))) x = true
  /\ B64.strict_eq
       (B64.ball_y (B64.simulateSingleBall (x, y, x_, y_) (B64.dyadic 0 0))) y = true
  /\ B64.ball_x_ (B64.simulateSingleBall (x, y, x_, y_) (B64.dyadic 0 0)) = x_
  /\ B64.strict_eq
       (B64.ball_y_ (B64.simulateSingleBall (x, y, x_, y_) (B64.dyadic 0 0))) y_ = true.
Proof.
  intros Hx Hy Hx_ Hy_ Htti.
  unfold B64.simulateSingleBall. rewrite Htti.
  unfold B64.simulateWithoutImpacts, B64.ball_x, B64.ball_y, B64.ball_x_, B64.ball_y_.
  change (B64.dyadic 0 0) with (SpecFloat.S754_zero false).
  assert (Hg : B64.mul B64.GRAVITY (SpecFloat.S754_zero false)
               = SpecFloat.S754_zero true) by reflexivity.
  assert (Hh : B64.mul (B64.mul (B64.mul (B64.dyadic 1 (-1)) B64.GRAVITY)
                          (SpecFloat.S754_zero false)) (SpecFloat.S754_zero false)
               = SpecFloat.S754_zero true) by reflexivity.
  rewrite Hg, Hh.
  destruct (b64_mul_zero x_ false Hx_) as [sx ->].
  destruct (b64_mul_zero y_ false Hy_) as [sy ->].
  repeat split.
  - now apply b64_add_zero.
  - apply b64_strict_eq_trans_zero; [assumption | now apply b64_add_zero].
  - now apply b64_add_zero.
Qed.

Lemma zero_step_unchanged_witness :
  B64.strict_eq
    (B64.ball_x (B64.simulateSingleBall
       (B64.dyadic 0 0, B64.dyadic 2000 0, B64.dyadic 3 0, B64.dyadic (-7) 0)
       (B64.dyadic 0 0))) (B64.dyadic 0 0) = true
  /\ B64.strict_eq
       (B64.ball_y (B64.simulateSingleBall
          (B64.dyadic 0 0, B64.dyadic 2000 0, B64.dyadic 3 0, B64.dyadic (-7) 0)
          (B64.dyadic 0 0))) (B64.dyadic 2000 0) = true
  /\ B64.ball_x_ (B64.simulateSingleBall
          (B64.dyadic 0 0, B64.dyadic 2000 0, B64.dyadic 3 0, B64.dyadic (-7) 0)
          (B64.dyadic 0 0)) = B64.dyadic 3 0
  /\ B64.strict_eq
       (B64.ball_y_ (B64.simulateSingleBall
          (B64.dyadic 0 0, B64.dyadic 2000 0, B64.dyadic 3 0, B64.dyadic (-7) 0)
          (B64.dyadic 0 0))) (B64.dyadic (-7) 0) = true.
Proof.
  apply zero_step_unchanged; vm_compute; reflexivity.
Defined.

(** A ball just above the floor can have a computed time to impact of [-0]:
    for [(10, 1e-14, 2, -750)] the discriminant [562500 + 2e-11] rounds to
    [562500], and the zero-second step applies the impact. *)
Lemma zero_step_rounds_to_impact :
  B64.timeToImpact
    (B64.dyadic 10 0, B64.dyadic 6338253001141147 (-99), B64.dyadic 2 0,
     B64.dyadic (-750) 0)
  = SpecFloat.S754_zero true
  /\ B64.simulateSingleBall
       (B64.dyadic 10 0, B64.dyadic 6338253001141147 (-99), B64.dyadic 2 0,
        B64.dyadic (-750) 0) (B64.dyadic 0 0)
     = (B64.dyadic 10 0, B64.dyadic 0 0, B64.dyadic 2 0, B64.dyadic 375 0).
Proof. split; vm_compute; reflexivity. Qed.

(** *** Settling on the floor *)

(** C5, as stated, fails on binary64.  The ball [(0, 36, 3, 0)] advanced by
    100 s lands after 0.2683281572999748 s and has settled long before the
    tick ends; [y] and [vy] are 0, but [x] is 299.99999999999994, the double
    below [x + vx dt = 300]. *)
Lemma settled_x_is_rounded_twice :
  B64.simulateSingleBall
    (B64.dyadic 0 0, B64.dyadic 36 0, B64.dyadic 3 0, B64.dyadic 0 0)
    (B64.dyadic 100 0)
  = (B64.dyadic 5277655813324799 (-44), B64.dyadic 0 0, B64.dyadic 3 0,
     B64.dyadic 0 0)
  /\ B64.add (B64.dyadic 0 0) (B64.mul (B64.dyadic 3 0) (B64.dyadic 100 0))
     = B64.dyadic 300 0
  /\ B64.strict_eq (B64.dyadic 5277655813324799 (-44)) (B64.dyadic 300 0) = false.
Proof. repeat split; vm_compute; reflexivity. Qed.

(** C5, amended.  On binary64, when the test [tti > dt] fails (the impact
    falls within the tick) and [timeToStillness(rv) < dt - tti] for the
    rebound velocity [rv], the ball comes back as
    [((x + vx tti) + vx (dt - tti), 0, vx, 0)]: [y] and [vy] are the number 0
    itself, and [x] is reached in two rounded steps. *)
Theorem settles_on_floor (x y x_ y_ dt : B64.float) :
  B64.gtb (B64.timeToImpact (x, y, x_, y_)) dt = false ->
  B64.ltb (B64.timeToStillness (B64.reboundVelocityAfterImpact (x, y, x_, y_)))
          (B64.sub dt (B64.timeToImpact (x, y, x_, y_))) = true ->
  B64.simulateSingleBall (x, y, x_, y_) dt
  = (B64.add (B64.add x (B64.mul x_ (B64.timeToImpact (x, y, x_, y_))))
             (B64.mul x_ (B64.sub dt (B64.timeToImpact (x, y, x_, y_)))),
     B64.dyadic 0 0, x_, B64.dyadic 0 0).
Proof.
  intros Himpact Hstill.
  unfold B64.simulateSingleBall. rewrite Himpact.
  unfold B64.reboundVelocityAfterImpact in Hstill.
  unfold B64.simulateWithoutImpacts in *.
  unfold B64.simulateAfterImpact. rewrite Hstill. reflexivity.
Qed.

Lemma settles_on_floor_witness :
  B64.simulateSingleBall
    (B64.dyadic 0 0, B64.dyadic 2000 0, B64.dyadic 3 0, B64.dyadic 0 0)
    (B64.dyadic 7 0)
  = (B64.add
       (B64.add (B64.dyadic 0 0)
          (B64.mul (B64.dyadic 3 0)
             (B64.timeToImpact
                (B64.dyadic 0 0, B64.dyadic 2000 0, B64.dyadic 3 0, B64.dyadic 0 0))))
       (B64.mul (B64.dyadic 3 0)
          (B64.sub (B64.dyadic 7 0)
             (B64.timeToImpact
                (B64.dyadic 0 0, B64.dyadic 2000 0, B64.dyadic 3 0, B64.dyadic 0 0)))),
     B64.dyadic 0 0, B64.dyadic 3 0, B64.dyadic 0 0).
Proof.
  apply settles_on_floor; vm_compute; reflexivity.
Defined.

(** *** Counting bounces *)




(** *** The time to impact *)

(** On binary64 [timeToImpact] returns the double nearest to the root, which
    need not be a root: dropped from 1000, the ball is given
    1.4142135623730951 s, where the height is not 0. *)
Lemma timeToImpact_is_rounded :
  B64.timeToImpact
    (B64.dyadic 0 0, B64.dyadic 1000 0, B64.dyadic 0 0, B64.dyadic 0 0)
  = B64.dyadic 6369051672525773 (-52)
  /\ Qeq_bool
       (B64.exactHeightAt (B64.dyadic 1000 0) (B64.dyadic 0 0)
          (B64.exact (B64.dyadic 6369051672525773 (-52))))
       0 = false.
Proof. split; vm_compute; reflexivity. Qed.



(** *** Energy in free fall *)




(** *** A ball below the floor *)

(** X9.  On binary64, a ball whose discriminant [vy*vy - 2*g*y], as the code
    computes it, is negative has no time to impact: [timeToImpact] returns
    [NaN], and [simulateSingleBall] returns [(NaN, NaN, vx, NaN)] for every
    time step. *)
Theorem sunken_ball_is_lost (x y x_ y_ seconds : B64.float) :
  B64.ltb (B64.sub (B64.mul y_ y_)
             (B64.mul (B64.mul (B64.dyadic 2 0) B64.GRAVITY) y))
          (B64.dyadic 0 0) = true ->
  B64.timeToImpact (x, y, x_, y_) = B64.NaN
  /\ B64.simulateSingleBall (x, y, x_, y_) seconds
     = (B64.NaN, B64.NaN, x_, B64.NaN).
Proof.
  intros Hd.
  assert (Ht : B64.timeToImpact (x, y, x_, y_) = B64.NaN).
  { unfold B64.timeToImpact. rewrite (b64_sqrt_negative _ Hd).
    now rewrite b64_sub_NaN_r. }
  split; [exact Ht |].
  unfold B64.simulateSingleBall. rewrite Ht.
  unfold B64.gtb. rewrite b64_ltb_NaN_r.
  unfold B64.simulateWithoutImpacts.
  rewrite !b64_mul_NaN_r, !b64_add_NaN_r, b64_sub_NaN_r.
  unfold B64.simulateAfterImpact.
  replace (B64.mul (B64.neg B64.COEFFICIENT_OF_RESTITUTION) B64.NaN)
    with B64.NaN by reflexivity.
  replace (B64.ltb (B64.timeToStillness B64.NaN) B64.NaN) with false by reflexivity.
  replace (B64.timeForNBounces B64.NaN (B64.numberOfBouncesInPeriod B64.NaN B64.NaN))
    with B64.NaN by reflexivity.
  replace (B64.Math_pow B64.COEFFICIENT_OF_RESTITUTION
             (B64.numberOfBouncesInPeriod B64.NaN B64.NaN))
    with B64.NaN by reflexivity.
  unfold B64.simulateWithoutImpacts.
  replace (B64.sub B64.NaN B64.NaN) with B64.NaN by reflexivity.
  replace (B64.mul B64.NaN B64.NaN) with B64.NaN by reflexivity.
  rewrite !b64_mul_NaN_r, !b64_add_NaN_r. reflexivity.
Qed.

Lemma sunken_ball_is_lost_witness :
  B64.timeToImpact
    (B64.dyadic 0 0, B64.dyadic (-1) 0, B64.dyadic 5 0, B64.dyadic 0 0) = B64.NaN
  /\ B64.simulateSingleBall
       (B64.dyadic 0 0, B64.dyadic (-1) 0, B64.dyadic 5 0, B64.dyadic 0 0)
       (B64.dyadic 1 0)
     = (B64.NaN, B64.NaN, B64.dyadic 5 0, B64.NaN).
Proof. apply sunken_ball_is_lost. vm_compute. reflexivity. Defined.

(** The ball [(0, -0.0005, 0, 1)] lies below the floor with a discriminant
    that is negative on the reals and rounds to 0 on binary64: the code
    finds the time to impact 0.001. *)
Lemma sunken_ball_rounding :
  B64.timeToImpact
    (B64.dyadic 0 0, B64.dyadic (-4611686018427388) (-63), B64.dyadic 0 0,
     B64.dyadic 1 0)
  = B64.dyadic 4611686018427388 (-62).
Proof. vm_compute. reflexivity. Qed.

End Binary64.
